(** * The lead views of the CRM (leads/views.py)

    A shallow embedding of the request handlers declared in
    [leads/views.py]: the persisted lead table, the mail outbox, the
    framework's generic class-based views the handlers inherit from, and
    the handlers themselves, followed by the properties stated about
    them. *)

From Stdlib Require Import ZArith List String Bool Lia.
Import ListNotations.

Open Scope string_scope.
Open Scope list_scope.
Open Scope Z_scope.

(** ** Data model *)

(** Modelled from the spec: [leads/models.py] is not among the sources.
    A row of the lead table has a primary key, a first name, a last name,
    an age and the foreign key to the owning agent, which may be absent;
    the handlers below never read the agent. *)
Record Lead : Type := mkLead {
  id : Z;
  first_name : string;
  last_name : string;
  age : Z;
  agent : option Z
}.

(** The lead table: the rows in insertion order and the next value of the
    auto-incremented primary key. *)
Record Table : Type := mkTable {
  rows : list Lead;
  next_id : Z
}.

(** An outgoing message, as the arguments of [send_mail]. *)
Record EmailMessage : Type := mkEmail {
  subject : string;
  message : string;
  from_email : string;
  recipient_list : list string
}.

(** What a request can observe and change: the lead table, the messages
    the mail transport has accepted, and whether the transport accepts
    messages at all. *)
Record World : Type := mkWorld {
  leads : Table;
  outbox : list EmailMessage;
  transport_up : bool
}.

Definition set_leads (t : Table) (w : World) : World :=
  {| leads := t; outbox := outbox w; transport_up := transport_up w |}.

Definition set_outbox (o : list EmailMessage) (w : World) : World :=
  {| leads := leads w; outbox := o; transport_up := transport_up w |}.

(** ** Exceptions and the request monad

    Handlers run against the world and either return a value or raise.
    Nothing is wrapped in a transaction: what was written before an
    exception stays written, so the world is threaded through both
    outcomes. *)

Inductive Exn : Type :=
| Http404
| SMTPException
| ValueError.

Inductive Result (A : Type) : Type :=
| Ok (a : A)
| Raise (e : Exn).
Arguments Ok {A} a.
Arguments Raise {A} e.

Definition M (A : Type) : Type := World -> Result A * World.

Definition ret {A : Type} (a : A) : M A := fun w => (Ok a, w).

Definition raise {A : Type} (e : Exn) : M A := fun w => (Raise e, w).

Definition bind {A B : Type} (m : M A) (k : A -> M B) : M B :=
  fun w =>
    match m w with
    | (Ok a, w') => k a w'
    | (Raise e, w') => (Raise e, w')
    end.

Declare Scope req_scope.
Delimit Scope req_scope with req.
Notation "x <- m ;; k" := (bind m (fun x => k))
  (at level 61, m at next level, right associativity) : req_scope.
Notation "m ;;; k" := (bind m (fun _ => k))
  (at level 61, right associativity) : req_scope.
Open Scope req_scope.

Definition get_world : M World := fun w => (Ok w, w).
Definition put_leads (t : Table) : M unit := fun w => (Ok tt, set_leads t w).

(** ** The object manager of [Lead] *)

Module Objects.

(** [Lead.objects.all()] *)
Definition all (t : Table) : list Lead := rows t.

(** [Lead.objects.count()] *)
Definition count (t : Table) : Z := Z.of_nat (List.length (rows t)).

(** [queryset.filter(pk=pk).get()]: the row of the queryset with that
    primary key, if any. *)
Definition get (pk : Z) (queryset : list Lead) : option Lead :=
  find (fun l => id l =? pk) queryset.

(** [Lead.objects.first()]: the row with the least primary key. *)
Definition first (t : Table) : option Lead :=
  fold_left
    (fun best l =>
       match best with
       | None => Some l
       | Some b => if id l <? id b then Some l else Some b
       end)
    (rows t) None.

(** [Lead.objects.last()]: the row with the greatest primary key. *)
Definition last (t : Table) : option Lead :=
  fold_left
    (fun best l =>
       match best with
       | None => Some l
       | Some b => if id b <? id l then Some l else Some b
       end)
    (rows t) None.

(** INSERT: the row gets the next primary key. *)
Definition insert (fn ln : string) (a : Z) (ag : option Z) (t : Table)
  : Lead * Table :=
  let l := mkLead (next_id t) fn ln a ag in
  (l, {| rows := rows t ++ [l]; next_id := next_id t + 1 |}).

(** UPDATE ... WHERE id = [id l]. *)
Definition update (l : Lead) (t : Table) : Table :=
  {| rows := map (fun r => if id r =? id l then l else r) (rows t);
     next_id := next_id t |}.

(** DELETE ... WHERE id = [pk]. *)
Definition delete (pk : Z) (t : Table) : Table :=
  {| rows := filter (fun r => negb (id r =? pk)) (rows t);
     next_id := next_id t |}.

(** Primary keys are unique and were all handed out already. *)
Definition wf (t : Table) : Prop :=
  NoDup (map id (rows t)) /\ Forall (fun l => id l < next_id t) (rows t).

Definition empty : Table := {| rows := []; next_id := 1 |}.

End Objects.

(** ** Mail *)

(** [django.core.mail.send_mail] with the default [fail_silently=False]:
    the message is handed to the transport, which accepts it or raises.
    The result is the number of messages sent. *)
Definition send_mail (subject message from_email : string)
  (recipient_list : list string) : M Z :=
  fun w =>
    if transport_up w
    then (Ok 1,
          set_outbox
            (outbox w ++ [mkEmail subject message from_email recipient_list])
            w)
    else (Raise SMTPException, w).

(** ** The form layer *)

(** Modelled from the spec: [leads/forms.py] is not among the sources.
    The spec gives the create and update form three inputs: first name
    (text, required, non-empty), last name (text, required) and age
    (integer, age >= 0), with the message of the age violation.  The
    submitted age is [None] when it is absent or not an integer. *)
Record FormData : Type := mkData {
  data_first_name : string;
  data_last_name : string;
  data_age : option Z
}.

Module Forms.

Definition required_msg : string := "This field is required.".

Definition min_value_msg : string :=
  "Ensure this value is greater than or equal to 0.".

(** Modelled from the spec: a required text field rejects the empty
    value. *)
Definition clean_text (v : string) : list string :=
  if (v =? "")%string then [required_msg] else [].

(** Modelled from the spec: the age is a required integer that must
    satisfy age >= 0. *)
Definition clean_age (v : option Z) : list string :=
  match v with
  | None => [required_msg]
  | Some a => if a <? 0 then [min_value_msg] else []
  end.

Definition field_errors (name : string) (msgs : list string)
  : list (string * list string) :=
  match msgs with
  | [] => []
  | _ :: _ => [(name, msgs)]
  end.

(** Modelled from the spec: the per-field error messages of submitted
    data, in field order; a field without errors has no entry. *)
Definition full_clean (d : FormData) : list (string * list string) :=
  field_errors "first_name" (clean_text (data_first_name d))
  ++ field_errors "last_name" (clean_text (data_last_name d))
  ++ field_errors "age" (clean_age (data_age d)).

(** Modelled from the spec: a form over the three inputs, bound to
    submitted data or unbound, and editing an existing record or none. *)
Record LeadModelForm : Type := mkForm {
  data : option FormData;
  instance : option Lead
}.

(** [form.errors]: an unbound form has none. *)
Definition errors (f : LeadModelForm) : list (string * list string) :=
  match data f with
  | None => []
  | Some d => full_clean d
  end.

(** [form.errors[name]] *)
Definition errors_of (name : string) (f : LeadModelForm) : list string :=
  match find (fun e => (fst e =? name)%string) (errors f) with
  | Some e => snd e
  | None => []
  end.

(** [form.is_valid()]: bound and without errors. *)
Definition is_valid (f : LeadModelForm) : bool :=
  match data f with
  | None => false
  | Some d => match full_clean d with [] => true | _ :: _ => false end
  end.

(** Modelled from the spec: [form.save()] persists a new record when the
    form edits none, and otherwise overwrites the three fields of the
    record it edits, keeping its identity and its agent.  Saving a form
    that did not validate raises. *)
Definition save (f : LeadModelForm) : M Lead :=
  match data f with
  | Some (mkData fn ln (Some a)) =>
      if is_valid f then
        w <- get_world ;;
        match instance f with
        | None =>
            let (l, t) := Objects.insert fn ln a None (leads w) in
            put_leads t ;;; ret l
        | Some old =>
            let l := mkLead (id old) fn ln a (agent old) in
            put_leads (Objects.update l (leads w)) ;;; ret l
        end
      else raise ValueError
  | _ => raise ValueError
  end.

(** The form of the tests, [LeadForm]: the same three fields, no
    record. *)
Definition LeadForm (d : FormData) : LeadModelForm :=
  {| data := Some d; instance := None |}.

End Forms.

(** ** Requests and responses *)

Inductive Method : Type :=
| GET | HEAD | POST | PUT | PATCH | DELETE | OPTIONS | TRACE.

Inductive User : Type :=
| AnonymousUser
| AuthenticatedUser (user_id : Z).

Definition is_authenticated (u : User) : bool :=
  match u with
  | AnonymousUser => false
  | AuthenticatedUser _ => true
  end.

Record HttpRequest : Type := mkRequest {
  method : Method;
  user : User;
  post_data : FormData
}.

(** The URLconf is not part of the handlers: a URL is kept as the route
    name it is reversed from; the login URL of the settings is a URL of
    its own. *)
Inductive Url : Type :=
| Reversed (viewname : string)
| LoginUrl.

Definition reverse (viewname : string) : Url := Reversed viewname.

(** What a template is rendered with. *)
Inductive Context : Type :=
| NoContext
| ObjectListContext (context_object_name : string) (object_list : list Lead)
| ObjectContext (context_object_name : string) (object : Lead)
| FormContext (form : Forms.LeadModelForm).

Inductive HttpResponse : Type :=
| TemplateResponse (template_name : string) (context : Context)
| HttpResponseRedirect (url : Url)
| HttpResponseNotAllowed
| OptionsResponse
| HttpResponseNotFound
| HttpResponseServerError.

Definition status_code (r : HttpResponse) : Z :=
  match r with
  | TemplateResponse _ _ => 200
  | HttpResponseRedirect _ => 302
  | HttpResponseNotAllowed => 405
  | OptionsResponse => 200
  | HttpResponseNotFound => 404
  | HttpResponseServerError => 500
  end.

(** The lead rows a response shows. *)
Definition rendered_leads (r : HttpResponse) : list Lead :=
  match r with
  | TemplateResponse _ (ObjectListContext _ ls) => ls
  | TemplateResponse _ (ObjectContext _ l) => [l]
  | TemplateResponse _ (FormContext f) =>
      match Forms.instance f with Some l => [l] | None => [] end
  | _ => []
  end.

(** ** The generic views of the framework

    The handlers of [views.py] are declared by inheritance from these.
    A view class answers the methods it has a handler for; [HEAD] is
    answered by the [GET] handler, [OPTIONS] by the base class, and any
    other method is not allowed. *)

Module generic.

Record Handlers : Type := mkHandlers {
  get : option (M HttpResponse);
  post : option (M HttpResponse);
  put : option (M HttpResponse);
  delete : option (M HttpResponse)
}.

(** [View.dispatch] *)
Definition dispatch (h : Handlers) (request : HttpRequest) : M HttpResponse :=
  let handler :=
    match method request with
    | GET | HEAD => get h
    | POST => post h
    | PUT => put h
    | DELETE => delete h
    | OPTIONS => Some (ret OptionsResponse)
    | PATCH | TRACE => None
    end in
  match handler with
  | Some run => run
  | None => ret HttpResponseNotAllowed
  end.

(** [LoginRequiredMixin.dispatch]: with the default
    [raise_exception = False] a request without an authenticated user is
    sent to the login URL and the view is not run. *)
Definition LoginRequiredMixin (view : HttpRequest -> M HttpResponse)
  (request : HttpRequest) : M HttpResponse :=
  if negb (is_authenticated (user request))
  then ret (HttpResponseRedirect LoginUrl)
  else view request.

(** [TemplateView] *)
Definition TemplateView (template_name : string) : Handlers :=
  {| get := Some (ret (TemplateResponse template_name NoContext));
     post := None; put := None; delete := None |}.

(** [ListView] *)
Definition ListView (template_name : string)
  (queryset : Table -> list Lead) (context_object_name : string) : Handlers :=
  {| get := Some (w <- get_world ;;
                  ret (TemplateResponse template_name
                         (ObjectListContext context_object_name
                            (queryset (leads w)))));
     post := None; put := None; delete := None |}.

(** [SingleObjectMixin.get_object] *)
Definition get_object (queryset : Table -> list Lead) (pk : Z) : M Lead :=
  w <- get_world ;;
  match Objects.get pk (queryset (leads w)) with
  | Some l => ret l
  | None => raise Http404
  end.

(** [DetailView] *)
Definition DetailView (template_name : string)
  (queryset : Table -> list Lead) (context_object_name : string) (pk : Z)
  : Handlers :=
  {| get := Some (object <- get_object queryset pk ;;
                  ret (TemplateResponse template_name
                         (ObjectContext context_object_name object)));
     post := None; put := None; delete := None |}.

(** [FormMixin.form_invalid] *)
Definition form_invalid (template_name : string) (form : Forms.LeadModelForm)
  : M HttpResponse :=
  ret (TemplateResponse template_name (FormContext form)).

(** [ModelFormMixin.form_valid] *)
Definition form_valid (get_success_url : Url) (form : Forms.LeadModelForm)
  : M HttpResponse :=
  object <- Forms.save form ;;
  ret (HttpResponseRedirect get_success_url).

(** [ProcessFormView.get] *)
Definition form_get (template_name : string) (object : option Lead)
  : M HttpResponse :=
  ret (TemplateResponse template_name
         (FormContext {| Forms.data := None; Forms.instance := object |})).

(** [ProcessFormView.post] *)
Definition form_post (template_name : string)
  (form_valid : Forms.LeadModelForm -> M HttpResponse)
  (object : option Lead) (request : HttpRequest) : M HttpResponse :=
  let form :=
    {| Forms.data := Some (post_data request); Forms.instance := object |} in
  if Forms.is_valid form then form_valid form
  else form_invalid template_name form.

(** [request.POST] of a request that is not a POST: the fields of the
    body are parsed for the POST method only, so the form of a PUT is
    bound to no data at all. *)
Definition no_data : FormData := mkData "" "" None.

Definition put_request (request : HttpRequest) : HttpRequest :=
  {| method := method request; user := user request; post_data := no_data |}.

(** [CreateView]: the form edits no record.  [ProcessFormView.put] runs
    [post], which then finds [request.POST] empty. *)
Definition CreateView (template_name : string)
  (form_valid : Forms.LeadModelForm -> M HttpResponse)
  (request : HttpRequest) : Handlers :=
  let post := form_post template_name form_valid None request in
  let put :=
    form_post template_name form_valid None (put_request request) in
  {| get := Some (form_get template_name None);
     post := Some post; put := Some put; delete := None |}.

(** [UpdateView]: the form edits the record the route names. *)
Definition UpdateView (template_name : string)
  (queryset : Table -> list Lead)
  (form_valid : Forms.LeadModelForm -> M HttpResponse)
  (pk : Z) (request : HttpRequest) : Handlers :=
  let post :=
    object <- get_object queryset pk ;;
    form_post template_name form_valid (Some object) request in
  let put :=
    object <- get_object queryset pk ;;
    form_post template_name form_valid (Some object) (put_request request) in
  {| get := Some (object <- get_object queryset pk ;;
                  form_get template_name (Some object));
     post := Some post; put := Some put; delete := None |}.

(** [DeleteView] *)
Definition DeleteView (template_name : string)
  (queryset : Table -> list Lead) (get_success_url : Url) (pk : Z)
  : Handlers :=
  let delete :=
    object <- get_object queryset pk ;;
    w <- get_world ;;
    put_leads (Objects.delete (id object) (leads w)) ;;;
    ret (HttpResponseRedirect get_success_url) in
  {| get := Some (object <- get_object queryset pk ;;
                  ret (TemplateResponse template_name
                         (ObjectContext "object" object)));
     post := Some delete; put := None; delete := Some delete |}.

End generic.

(** ** The handlers of [views.py] *)

Module LandingPageView.
Definition template_name : string := "landing.html".
Definition as_view (request : HttpRequest) : M HttpResponse :=
  generic.dispatch (generic.TemplateView template_name) request.
End LandingPageView.

Module LeadListView.
Definition template_name : string := "leads/lead_list.html".
Definition queryset : Table -> list Lead := Objects.all.
Definition context_object_name : string := "leads".
Definition as_view : HttpRequest -> M HttpResponse :=
  generic.LoginRequiredMixin
    (fun request =>
       generic.dispatch
         (generic.ListView template_name queryset context_object_name)
         request).
End LeadListView.

Module LeadDetailView.
Definition template_name : string := "leads/lead_detail.html".
Definition queryset : Table -> list Lead := Objects.all.
Definition context_object_name : string := "lead".
Definition as_view (pk : Z) : HttpRequest -> M HttpResponse :=
  generic.LoginRequiredMixin
    (fun request =>
       generic.dispatch
         (generic.DetailView template_name queryset context_object_name pk)
         request).
End LeadDetailView.

Module LeadCreateView.
Definition template_name : string := "leads/lead_create.html".
Definition get_success_url : Url := reverse "leads:lead-list".
Definition form_valid (form : Forms.LeadModelForm) : M HttpResponse :=
  send_mail
    "A lead has been created"
    "Go to the site to see the new lead"
    "test@test.com"
    ["test2@test.com"] ;;;
  generic.form_valid get_success_url form.
Definition as_view : HttpRequest -> M HttpResponse :=
  generic.LoginRequiredMixin
    (fun request =>
       generic.dispatch
         (generic.CreateView template_name form_valid request) request).
End LeadCreateView.

Module LeadUpdateView.
Definition template_name : string := "leads/lead_update.html".
Definition queryset : Table -> list Lead := Objects.all.
Definition get_success_url : Url := reverse "leads:lead-list".
Definition as_view (pk : Z) : HttpRequest -> M HttpResponse :=
  generic.LoginRequiredMixin
    (fun request =>
       generic.dispatch
         (generic.UpdateView template_name queryset
            (generic.form_valid get_success_url) pk request)
         request).
End LeadUpdateView.

Module LeadDeleteView.
Definition template_name : string := "leads/lead_delete.html".
Definition queryset : Table -> list Lead := Objects.all.
Definition get_success_url : Url := reverse "leads:lead-list".
Definition as_view (pk : Z) : HttpRequest -> M HttpResponse :=
  generic.LoginRequiredMixin
    (fun request =>
       generic.dispatch
         (generic.DeleteView template_name queryset get_success_url pk)
         request).
End LeadDeleteView.

(** How the framework answers a request: the response of the view, a
    "not found" page for [Http404], and a server error for any exception
    no one handled. *)
Definition get_response (view : M HttpResponse) (w : World)
  : HttpResponse * World :=
  match view w with
  | (Ok r, w') => (r, w')
  | (Raise Http404, w') => (HttpResponseNotFound, w')
  | (Raise _, w') => (HttpResponseServerError, w')
  end.

(** ** Vocabulary of the statements *)

(** The same request sent by another user. *)
Definition with_user (u : User) (request : HttpRequest) : HttpRequest :=
  {| method := method request; user := u; post_data := post_data request |}.

(** The bound form a handler builds from a request. *)
Definition bound_form (request : HttpRequest) (object : option Lead)
  : Forms.LeadModelForm :=
  {| Forms.data := Some (post_data request); Forms.instance := object |}.

(** The table invariant over the whole world. *)
Definition wf_world (w : World) : Prop := Objects.wf (leads w).

(** The fixture of the test case: one lead, John Doe, owned by agent 1. *)
Definition john_doe : Lead := mkLead 1 "John" "Doe" 30 (Some 1).

Definition fixture_table : Table := {| rows := [john_doe]; next_id := 2 |}.

Definition fixture : World :=
  {| leads := fixture_table; outbox := []; transport_up := true |}.

(** The same fixture behind a mail transport that refuses messages. *)
Definition fixture_mail_down : World :=
  {| leads := fixture_table; outbox := []; transport_up := false |}.

(** A second lead of another agent, for the statements about several
    records. *)
Definition mary_major : Lead := mkLead 2 "Mary" "Major" 41 (Some 2).

Definition two_leads : World :=
  {| leads := {| rows := [john_doe; mary_major]; next_id := 3 |};
     outbox := []; transport_up := true |}.

(** The submission of the tests and an invalid one. *)
Definition submission : FormData := mkData "John" "Doe" (Some 25).

Definition bad_submission : FormData := mkData "John" "Doe" (Some (-25)).

Definition post_by (u : User) (d : FormData) : HttpRequest :=
  {| method := POST; user := u; post_data := d |}.

Definition get_by (u : User) : HttpRequest :=
  {| method := GET; user := u; post_data := mkData "" "" None |}.

(** The handlers behind the login requirement, for a route naming the
    record [pk]. *)
Definition protected_views (pk : Z) : list (HttpRequest -> M HttpResponse) :=
  [ LeadListView.as_view;
    LeadDetailView.as_view pk;
    LeadCreateView.as_view;
    LeadUpdateView.as_view pk;
    LeadDeleteView.as_view pk ].

(** The message the create handler hands to the mail transport. *)
Definition lead_created_mail : EmailMessage :=
  {| subject := "A lead has been created";
     message := "Go to the site to see the new lead";
     from_email := "test@test.com";
     recipient_list := ["test2@test.com"] |}.

(** ** Routes and request sequences *)

(** The same request sent with another method. *)
Definition with_method (m : Method) (request : HttpRequest) : HttpRequest :=
  {| method := m; user := user request; post_data := post_data request |}.

(** Modelled from the spec: [urls.py] is not among the sources.  The
    routes are those of the spec's table of external interfaces that lead
    to a handler modelled here. *)
Inductive Route : Type :=
| LandingRoute
| ListRoute
| DetailRoute (pk : Z)
| CreateRoute
| UpdateRoute (pk : Z)
| DeleteRoute (pk : Z).

Definition resolve (route : Route) : HttpRequest -> M HttpResponse :=
  match route with
  | LandingRoute => LandingPageView.as_view
  | ListRoute => LeadListView.as_view
  | DetailRoute pk => LeadDetailView.as_view pk
  | CreateRoute => LeadCreateView.as_view
  | UpdateRoute pk => LeadUpdateView.as_view pk
  | DeleteRoute pk => LeadDeleteView.as_view pk
  end.

(** One request as the server sees it: where it goes, what it carries,
    and whether the mail transport accepts messages while it is served. *)
Record Hit : Type := mkHit {
  hit_route : Route;
  hit_request : HttpRequest;
  hit_mail_up : bool
}.

Definition set_transport (up : bool) (w : World) : World :=
  {| leads := leads w; outbox := outbox w; transport_up := up |}.

Definition serve (h : Hit) (w : World) : HttpResponse * World :=
  get_response (resolve (hit_route h) (hit_request h))
    (set_transport (hit_mail_up h) w).

(** Requests are served one after the other. *)
Fixpoint serve_all (hits : list Hit) (w : World) : World :=
  match hits with
  | [] => w
  | h :: rest => serve_all rest (snd (serve h w))
  end.

(** A fresh deployment: no lead, no message sent. *)
Definition initial : World :=
  {| leads := Objects.empty; outbox := []; transport_up := true |}.

(** A row that went through the form: both names given, age not
    negative. *)
Definition validated (l : Lead) : Prop :=
  first_name l <> "" /\ last_name l <> "" /\ 0 <= age l.

(** An answer that is neither the redirect to the list nor a server
    error. *)
Definition plain_answer (resp : HttpResponse) : Prop :=
  resp <> HttpResponseRedirect (reverse "leads:lead-list") /\
  status_code resp <> 500.

(** The world after a create that went through. *)
Definition created (fn ln : string) (a : Z) (w : World) : World :=
  set_leads (snd (Objects.insert fn ln a None (leads w)))
    (set_outbox (outbox w ++ [lead_created_mail]) w).

(** The books of the mail: one message, the fixed one, per key handed
    out, and no more records than messages. *)
Definition books_balance (w : World) : Prop :=
  next_id (leads w) = 1 + Z.of_nat (List.length (outbox w)) /\
  Forall (fun m => m = lead_created_mail) (outbox w) /\
  Objects.count (leads w) <= Z.of_nat (List.length (outbox w)).

(** ** Properties of the object manager *)

Section ObjectsFacts.

Lemma get_some_id (pk : Z) (qs : list Lead) (l : Lead) :
  Objects.get pk qs = Some l -> id l = pk /\ In l qs.
Proof.
  unfold Objects.get. intros H.
  apply find_some in H. destruct H as [Hin Heq].
  apply Z.eqb_eq in Heq. auto.
Qed.

Lemma get_update_same (pk : Z) (l old : Lead) (t : Table) :
  id l = pk ->
  Objects.get pk (rows t) = Some old ->
  Objects.get pk (rows (Objects.update l t)) = Some l.
Proof.
  intros Hid. subst pk. unfold Objects.get, Objects.update. simpl.
  induction (rows t) as [|r rs IH]; simpl; [discriminate|].
  destruct (id r =? id l) eqn:E.
  - intros _. rewrite Z.eqb_refl. reflexivity.
  - rewrite E. exact IH.
Qed.

Lemma get_update_other (pk pk' : Z) (l : Lead) (t : Table) :
  id l = pk -> pk' <> pk ->
  Objects.get pk' (rows (Objects.update l t)) = Objects.get pk' (rows t).
Proof.
  intros Hid Hne. subst pk. unfold Objects.get, Objects.update. simpl.
  induction (rows t) as [|r rs IH]; simpl; [reflexivity|].
  destruct (id r =? id l) eqn:E.
  - apply Z.eqb_eq in E.
    assert (H1 : (id l =? pk') = false) by (apply Z.eqb_neq; lia).
    assert (H2 : (id r =? pk') = false) by (apply Z.eqb_neq; lia).
    rewrite H1, H2. exact IH.
  - destruct (id r =? pk'); [reflexivity | exact IH].
Qed.

Lemma ids_update (l : Lead) (t : Table) :
  map id (rows (Objects.update l t)) = map id (rows t).
Proof.
  unfold Objects.update. simpl.
  induction (rows t) as [|r rs IH]; simpl; [reflexivity|].
  rewrite IH. destruct (id r =? id l) eqn:E; [|reflexivity].
  apply Z.eqb_eq in E. rewrite E. reflexivity.
Qed.

Lemma count_update (l : Lead) (t : Table) :
  Objects.count (Objects.update l t) = Objects.count t.
Proof.
  unfold Objects.count, Objects.update. simpl.
  rewrite length_map. reflexivity.
Qed.

Lemma get_delete_same (pk : Z) (t : Table) :
  Objects.get pk (rows (Objects.delete pk t)) = None.
Proof.
  unfold Objects.get, Objects.delete. simpl.
  induction (rows t) as [|r rs IH]; simpl; [reflexivity|].
  destruct (id r =? pk) eqn:E; simpl; [exact IH|].
  rewrite E. exact IH.
Qed.

Lemma get_delete_other (pk pk' : Z) (t : Table) :
  pk' <> pk ->
  Objects.get pk' (rows (Objects.delete pk t)) = Objects.get pk' (rows t).
Proof.
  intros Hne. unfold Objects.get, Objects.delete. simpl.
  induction (rows t) as [|r rs IH]; simpl; [reflexivity|].
  destruct (id r =? pk) eqn:E; simpl.
  - apply Z.eqb_eq in E.
    assert (H : (id r =? pk') = false) by (apply Z.eqb_neq; lia).
    rewrite H. exact IH.
  - destruct (id r =? pk'); [reflexivity | exact IH].
Qed.

(** A key that no row carries filters nothing out. *)
Lemma filter_absent (pk : Z) (rs : list Lead) :
  ~ In pk (map id rs) ->
  filter (fun r => negb (id r =? pk)) rs = rs.
Proof.
  induction rs as [|r rs IH]; simpl; [reflexivity|].
  intros Hn.
  assert (E : (id r =? pk) = false) by (apply Z.eqb_neq; intuition).
  rewrite E. simpl. rewrite IH; [reflexivity | intuition].
Qed.

(** With unique keys, deleting a present key removes exactly one row. *)
Lemma length_delete (pk : Z) (rs : list Lead) :
  NoDup (map id rs) -> In pk (map id rs) ->
  S (List.length (filter (fun r => negb (id r =? pk)) rs)) = List.length rs.
Proof.
  induction rs as [|r rs IH]; simpl; [intros _ []|].
  intros Hnd Hin. inversion Hnd as [|x xs Hx Hnd']; subst.
  destruct (id r =? pk) eqn:E; simpl.
  - apply Z.eqb_eq in E. subst pk.
    rewrite filter_absent by exact Hx. reflexivity.
  - f_equal. apply IH; [exact Hnd'|].
    destruct Hin as [Heq|Hin]; [|exact Hin].
    apply Z.eqb_neq in E. contradiction.
Qed.

Lemma count_delete (pk : Z) (t : Table) (l : Lead) :
  Objects.wf t -> Objects.get pk (rows t) = Some l ->
  Objects.count (Objects.delete pk t) = Objects.count t - 1.
Proof.
  intros [Hnd _] Hget. apply get_some_id in Hget. destruct Hget as [Hid Hin].
  unfold Objects.count, Objects.delete. simpl.
  assert (Hpk : In pk (map id (rows t))).
  { rewrite <- Hid. apply in_map. exact Hin. }
  pose proof (length_delete pk (rows t) Hnd Hpk) as H. lia.
Qed.

Lemma last_in (rs : list Lead) (acc : option Lead) (l : Lead) :
  fold_left
    (fun best r =>
       match best with
       | None => Some r
       | Some b => if id b <? id r then Some r else Some b
       end) rs acc = Some l ->
  acc = Some l \/ In l rs.
Proof.
  revert acc. induction rs as [|r rs IH]; simpl; intros acc H; [auto|].
  apply IH in H. destruct H as [H|H]; [|auto].
  destruct acc as [b|].
  - destruct (id b <? id r); inversion H; subst; auto.
  - inversion H; subst; auto.
Qed.

(** The row just inserted is the one [last()] returns. *)
Lemma last_insert (fn ln : string) (a : Z) (ag : option Z) (t : Table) :
  Objects.wf t ->
  Objects.last (snd (Objects.insert fn ln a ag t))
  = Some (fst (Objects.insert fn ln a ag t)).
Proof.
  intros [_ Hlt]. unfold Objects.last, Objects.insert. simpl.
  rewrite fold_left_app. simpl.
  match goal with |- match ?f with _ => _ end = _ => destruct f as [b|] eqn:E end;
    [|reflexivity].
  apply last_in in E. destruct E as [E|E]; [discriminate|].
  rewrite Forall_forall in Hlt. apply Hlt in E.
  apply Z.ltb_lt in E. simpl. rewrite E. reflexivity.
Qed.

Lemma wf_empty : Objects.wf Objects.empty.
Proof. split; constructor. Qed.

Lemma wf_insert (fn ln : string) (a : Z) (ag : option Z) (t : Table) :
  Objects.wf t -> Objects.wf (snd (Objects.insert fn ln a ag t)).
Proof.
  intros [Hnd Hlt]. unfold Objects.wf, Objects.insert. simpl. split.
  - rewrite map_app. simpl. rewrite Forall_forall in Hlt.
    apply NoDup_Add with (a := next_id t) (l := map id (rows t)).
    + pose proof (Add_app (next_id t) (map id (rows t)) []) as HA.
      rewrite app_nil_r in HA. exact HA.
    + split; [exact Hnd|].
      intros Hin. apply in_map_iff in Hin. destruct Hin as [r [Hr Hin]].
      apply Hlt in Hin. lia.
  - apply Forall_app. split.
    + eapply Forall_impl; [|exact Hlt]. simpl. intros; lia.
    + constructor; [simpl; lia | constructor].
Qed.

Lemma wf_update (l old : Lead) (t : Table) :
  Objects.wf t -> Objects.get (id l) (rows t) = Some old ->
  Objects.wf (Objects.update l t).
Proof.
  intros [Hnd Hlt] Hget. split.
  - rewrite ids_update. exact Hnd.
  - unfold Objects.update. simpl. apply Forall_forall.
    intros x Hx. apply in_map_iff in Hx. destruct Hx as [r [Hr Hin]].
    rewrite Forall_forall in Hlt.
    destruct (id r =? id l) eqn:E.
    + subst x. apply Z.eqb_eq in E. rewrite <- E. apply Hlt. exact Hin.
    + subst x. apply Hlt. exact Hin.
Qed.

Lemma wf_delete (pk : Z) (t : Table) :
  Objects.wf t -> Objects.wf (Objects.delete pk t).
Proof.
  intros [Hnd Hlt]. unfold Objects.wf, Objects.delete. simpl. split.
  - clear Hlt. induction (rows t) as [|r rs IH]; simpl; [constructor|].
    inversion Hnd as [|x xs Hx Hnd']; subst.
    destruct (id r =? pk); simpl; [apply IH; exact Hnd'|].
    constructor; [|apply IH; exact Hnd'].
    intros Hin. apply Hx. apply in_map_iff in Hin.
    destruct Hin as [y [Hy Hin]]. apply filter_In in Hin.
    rewrite <- Hy. apply in_map. tauto.
  - rewrite Forall_forall in *. intros x Hx. apply filter_In in Hx.
    apply Hlt. tauto.
Qed.

End ObjectsFacts.

(** ** Properties of the form layer *)

Section FormFacts.

Lemma clean_text_nil (v : string) : Forms.clean_text v = [] <-> v <> "".
Proof.
  unfold Forms.clean_text. destruct (String.eqb_spec v "") as [E|E].
  - split; [discriminate | contradiction].
  - split; [intros _; exact E | reflexivity].
Qed.

Lemma clean_age_nil (v : option Z) :
  Forms.clean_age v = [] <-> exists a, v = Some a /\ 0 <= a.
Proof.
  unfold Forms.clean_age. destruct v as [a|].
  - destruct (Z.ltb_spec a 0) as [E|E].
    + split; [discriminate|]. intros [b [Hb Hle]]. inversion Hb. lia.
    + split; [intros _; exists a; auto | reflexivity].
  - split; [discriminate|]. intros [b [Hb _]]. discriminate.
Qed.

Lemma field_errors_nil (name : string) (msgs : list string) :
  Forms.field_errors name msgs = [] <-> msgs = [].
Proof. destruct msgs; simpl; split; congruence. Qed.

Lemma full_clean_nil (d : FormData) :
  Forms.full_clean d = [] <->
  data_first_name d <> "" /\ data_last_name d <> "" /\
  exists a, data_age d = Some a /\ 0 <= a.
Proof.
  unfold Forms.full_clean.
  rewrite <- clean_text_nil, <- clean_text_nil, <- clean_age_nil.
  destruct (Forms.clean_text (data_first_name d));
    destruct (Forms.clean_text (data_last_name d));
    destruct (Forms.clean_age (data_age d)); simpl;
    split; try discriminate; try tauto;
    intros [H1 [H2 H3]]; discriminate.
Qed.

Lemma is_valid_bound (d : FormData) (i : option Lead) :
  Forms.is_valid {| Forms.data := Some d; Forms.instance := i |} = true <->
  Forms.full_clean d = [].
Proof.
  unfold Forms.is_valid. simpl.
  destruct (Forms.full_clean d); split; congruence.
Qed.

(** Validity does not depend on the record the form edits. *)
Lemma is_valid_instance (d : FormData) (i j : option Lead) :
  Forms.is_valid {| Forms.data := Some d; Forms.instance := i |}
  = Forms.is_valid {| Forms.data := Some d; Forms.instance := j |}.
Proof. reflexivity. Qed.


Lemma negative_age_errors (d : FormData) (i : option Lead) (a : Z) :
  data_age d = Some a -> a < 0 ->
  Forms.errors_of "age" {| Forms.data := Some d; Forms.instance := i |}
  = [Forms.min_value_msg].
Proof.
  intros Ha Hlt. unfold Forms.errors_of, Forms.errors, Forms.full_clean. simpl.
  rewrite Ha. simpl. apply Z.ltb_lt in Hlt. rewrite Hlt. simpl.
  unfold Forms.clean_text.
  destruct (data_first_name d =? "")%string;
    destruct (data_last_name d =? "")%string; reflexivity.
Qed.

(** What [save] does with a form that validated. *)
Lemma save_valid (d : FormData) (i : option Lead) (w : World) :
  Forms.is_valid {| Forms.data := Some d; Forms.instance := i |} = true ->
  exists a,
    data_age d = Some a /\ 0 <= a /\
    Forms.save {| Forms.data := Some d; Forms.instance := i |} w =
    match i with
    | None =>
        let ins :=
          Objects.insert (data_first_name d) (data_last_name d) a None
            (leads w) in
        (Ok (fst ins), set_leads (snd ins) w)
    | Some old =>
        let l :=
          mkLead (id old) (data_first_name d) (data_last_name d) a
            (agent old) in
        (Ok l, set_leads (Objects.update l (leads w)) w)
    end.
Proof.
  intros Hv. pose proof Hv as Hc. apply is_valid_bound in Hc.
  apply full_clean_nil in Hc. destruct Hc as [_ [_ [a [Ha Hle]]]].
  exists a. split; [exact Ha|]. split; [exact Hle|].
  unfold Forms.save. destruct d as [fn ln ag]. simpl in *. subst ag.
  rewrite Hv. destruct i; reflexivity.
Qed.

End FormFacts.

(** ** What each handler computes *)

Section HandlerFacts.

Lemma anonymous_redirected (view : HttpRequest -> M HttpResponse)
  (r : HttpRequest) (w : World) :
  is_authenticated (user r) = false ->
  generic.LoginRequiredMixin view r w = (Ok (HttpResponseRedirect LoginUrl), w).
Proof.
  intros H. unfold generic.LoginRequiredMixin. rewrite H. reflexivity.
Qed.

Lemma authenticated_runs (view : HttpRequest -> M HttpResponse)
  (r : HttpRequest) :
  is_authenticated (user r) = true ->
  generic.LoginRequiredMixin view r = view r.
Proof.
  intros H. unfold generic.LoginRequiredMixin. rewrite H. reflexivity.
Qed.

Lemma get_object_found (pk : Z) (w : World) (l : Lead) :
  Objects.get pk (rows (leads w)) = Some l ->
  generic.get_object Objects.all pk w = (Ok l, w).
Proof.
  intros H. unfold generic.get_object, bind, get_world, Objects.all.
  rewrite H. reflexivity.
Qed.

Lemma get_object_missing (pk : Z) (w : World) :
  Objects.get pk (rows (leads w)) = None ->
  generic.get_object Objects.all pk w = (Raise Http404, w).
Proof.
  intros H. unfold generic.get_object, bind, get_world, Objects.all.
  rewrite H. reflexivity.
Qed.

Lemma create_post_invalid (r : HttpRequest) (w : World) :
  is_authenticated (user r) = true -> method r = POST ->
  Forms.is_valid (bound_form r None) = false ->
  LeadCreateView.as_view r w
  = (Ok (TemplateResponse "leads/lead_create.html"
           (FormContext (bound_form r None))), w).
Proof.
  intros Ha Hm Hv. unfold LeadCreateView.as_view.
  rewrite authenticated_runs by exact Ha.
  unfold generic.dispatch. rewrite Hm. simpl.
  unfold generic.form_post. fold (bound_form r None). rewrite Hv.
  reflexivity.
Qed.

Lemma create_post_valid (r : HttpRequest) (w : World) :
  is_authenticated (user r) = true -> method r = POST ->
  Forms.is_valid (bound_form r None) = true ->
  exists a,
    data_age (post_data r) = Some a /\ 0 <= a /\
    LeadCreateView.as_view r w =
    if transport_up w then
      let ins :=
        Objects.insert (data_first_name (post_data r))
          (data_last_name (post_data r)) a None (leads w) in
      (Ok (HttpResponseRedirect (reverse "leads:lead-list")),
       set_leads (snd ins)
         (set_outbox
            (outbox w ++
             [mkEmail "A lead has been created"
                "Go to the site to see the new lead"
                "test@test.com" ["test2@test.com"]]) w))
    else (Raise SMTPException, w).
Proof.
  intros Ha Hm Hv.
  destruct (save_valid (post_data r) None
              (set_outbox
                 (outbox w ++
                  [mkEmail "A lead has been created"
                     "Go to the site to see the new lead"
                     "test@test.com" ["test2@test.com"]]) w) Hv)
    as [a [Hage [Hle Hsave]]].
  exists a. split; [exact Hage|]. split; [exact Hle|].
  unfold LeadCreateView.as_view.
  rewrite authenticated_runs by exact Ha.
  unfold generic.dispatch. rewrite Hm. simpl.
  unfold generic.form_post. fold (bound_form r None). rewrite Hv.
  unfold LeadCreateView.form_valid, generic.form_valid, bind, send_mail.
  destruct (transport_up w); [|reflexivity].
  unfold bound_form. rewrite Hsave. reflexivity.
Qed.


Lemma update_post_invalid (pk : Z) (r : HttpRequest) (w : World)
  (old : Lead) :
  is_authenticated (user r) = true -> method r = POST ->
  Objects.get pk (rows (leads w)) = Some old ->
  Forms.is_valid (bound_form r (Some old)) = false ->
  LeadUpdateView.as_view pk r w
  = (Ok (TemplateResponse "leads/lead_update.html"
           (FormContext (bound_form r (Some old)))), w).
Proof.
  intros Ha Hm Hg Hv. unfold LeadUpdateView.as_view.
  rewrite authenticated_runs by exact Ha.
  unfold generic.dispatch. rewrite Hm. simpl.
  unfold bind. unfold LeadUpdateView.queryset.
  rewrite (get_object_found pk w old Hg).
  unfold generic.form_post. fold (bound_form r (Some old)). rewrite Hv.
  reflexivity.
Qed.

Lemma update_post_valid (pk : Z) (r : HttpRequest) (w : World)
  (old : Lead) :
  is_authenticated (user r) = true -> method r = POST ->
  Objects.get pk (rows (leads w)) = Some old ->
  Forms.is_valid (bound_form r (Some old)) = true ->
  exists a,
    data_age (post_data r) = Some a /\ 0 <= a /\
    LeadUpdateView.as_view pk r w =
    (Ok (HttpResponseRedirect (reverse "leads:lead-list")),
     set_leads
       (Objects.update
          (mkLead pk (data_first_name (post_data r))
             (data_last_name (post_data r)) a (agent old))
          (leads w)) w).
Proof.
  intros Ha Hm Hg Hv.
  destruct (save_valid (post_data r) (Some old) w Hv)
    as [a [Hage [Hle Hsave]]].
  exists a. split; [exact Hage|]. split; [exact Hle|].
  unfold LeadUpdateView.as_view.
  rewrite authenticated_runs by exact Ha.
  unfold generic.dispatch. rewrite Hm. simpl.
  unfold bind at 1. unfold LeadUpdateView.queryset.
  rewrite (get_object_found pk w old Hg).
  unfold generic.form_post. fold (bound_form r (Some old)). rewrite Hv.
  unfold generic.form_valid, bind, bound_form. rewrite Hsave.
  destruct (get_some_id _ _ _ Hg) as [Hid _]. rewrite Hid. reflexivity.
Qed.

Lemma delete_post_missing (pk : Z) (r : HttpRequest) (w : World) :
  is_authenticated (user r) = true -> method r = POST ->
  Objects.get pk (rows (leads w)) = None ->
  LeadDeleteView.as_view pk r w = (Raise Http404, w).
Proof.
  intros Ha Hm Hg. unfold LeadDeleteView.as_view.
  rewrite authenticated_runs by exact Ha.
  unfold generic.dispatch. rewrite Hm. simpl.
  unfold bind. unfold LeadDeleteView.queryset.
  rewrite get_object_missing by exact Hg. reflexivity.
Qed.

Lemma delete_post_found (pk : Z) (r : HttpRequest) (w : World)
  (old : Lead) :
  is_authenticated (user r) = true -> method r = POST ->
  Objects.get pk (rows (leads w)) = Some old ->
  LeadDeleteView.as_view pk r w =
  (Ok (HttpResponseRedirect (reverse "leads:lead-list")),
   set_leads (Objects.delete pk (leads w)) w).
Proof.
  intros Ha Hm Hg. unfold LeadDeleteView.as_view.
  rewrite authenticated_runs by exact Ha.
  unfold generic.dispatch. rewrite Hm. simpl.
  unfold bind. unfold LeadDeleteView.queryset.
  rewrite (get_object_found pk w old Hg).
  destruct (get_some_id _ _ _ Hg) as [Hid _]. rewrite Hid. reflexivity.
Qed.

Lemma detail_get_found (pk : Z) (r : HttpRequest) (w : World) (l : Lead) :
  is_authenticated (user r) = true -> method r = GET ->
  Objects.get pk (rows (leads w)) = Some l ->
  LeadDetailView.as_view pk r w =
  (Ok (TemplateResponse "leads/lead_detail.html" (ObjectContext "lead" l)),
   w).
Proof.
  intros Ha Hm Hg. unfold LeadDetailView.as_view.
  rewrite authenticated_runs by exact Ha.
  unfold generic.dispatch. rewrite Hm. simpl.
  unfold bind. unfold LeadDetailView.queryset.
  rewrite (get_object_found pk w l Hg). reflexivity.
Qed.

Lemma list_get (r : HttpRequest) (w : World) :
  is_authenticated (user r) = true -> method r = GET ->
  LeadListView.as_view r w =
  (Ok (TemplateResponse "leads/lead_list.html"
         (ObjectListContext "leads" (rows (leads w)))), w).
Proof.
  intros Ha Hm. unfold LeadListView.as_view.
  rewrite authenticated_runs by exact Ha.
  unfold generic.dispatch. rewrite Hm. reflexivity.
Qed.

End HandlerFacts.

(** The create handler's form processing on a submission that validates:
    the notification goes out first, the record is saved after it. *)
Lemma create_form_post_valid (r : HttpRequest) (w : World) :
  Forms.is_valid (bound_form r None) = true ->
  exists a,
    data_age (post_data r) = Some a /\ 0 <= a /\
    generic.form_post LeadCreateView.template_name LeadCreateView.form_valid
      None r w =
    if transport_up w then
      (Ok (HttpResponseRedirect (reverse "leads:lead-list")),
       set_leads
         (snd (Objects.insert (data_first_name (post_data r))
                 (data_last_name (post_data r)) a None (leads w)))
         (set_outbox (outbox w ++ [lead_created_mail]) w))
    else (Raise SMTPException, w).
Proof.
  intros Hv.
  destruct (save_valid (post_data r) None
              (set_outbox (outbox w ++ [lead_created_mail]) w) Hv)
    as [a [Hage [Hle Hsave]]].
  exists a. split; [exact Hage|]. split; [exact Hle|].
  unfold generic.form_post. fold (bound_form r None). rewrite Hv.
  unfold LeadCreateView.form_valid, generic.form_valid, bind, send_mail.
  destruct (transport_up w); [|reflexivity].
  unfold bound_form. fold lead_created_mail. rewrite Hsave. reflexivity.
Qed.

(** Whenever the create handler answers with the redirect to the list,
    it has handed exactly the fixed message to the transport. *)
Lemma create_success_outbox (r : HttpRequest) (w w' : World) :
  LeadCreateView.as_view r w
  = (Ok (HttpResponseRedirect (reverse "leads:lead-list")), w') ->
  outbox w' = outbox w ++ [lead_created_mail].
Proof.
  unfold LeadCreateView.as_view, generic.LoginRequiredMixin.
  destruct (is_authenticated (user r)); simpl; [|discriminate].
  assert (Hpost :
    generic.form_post LeadCreateView.template_name LeadCreateView.form_valid
      None r w
    = (Ok (HttpResponseRedirect (reverse "leads:lead-list")), w') ->
    outbox w' = outbox w ++ [lead_created_mail]).
  { destruct (Forms.is_valid (bound_form r None)) eqn:Hv.
    - destruct (create_form_post_valid r w Hv) as [a [_ [_ Hrun]]].
      rewrite Hrun. destruct (transport_up w); [|discriminate].
      intros H. inversion H. reflexivity.
    - unfold generic.form_post. fold (bound_form r None). rewrite Hv.
      discriminate. }
  unfold generic.dispatch.
  destruct (method r); simpl; try discriminate; exact Hpost.
Qed.

(** ** The table invariant is kept by every handler *)

Section Invariant.

Variable w : World.
Hypothesis Hwf : wf_world w.

Lemma form_post_create_wf (r : HttpRequest) :
  wf_world
    (snd (generic.form_post LeadCreateView.template_name
            LeadCreateView.form_valid None r w)).
Proof.
  destruct (Forms.is_valid (bound_form r None)) eqn:Hv.
  - destruct (create_form_post_valid r w Hv) as [a [_ [_ Hrun]]].
    rewrite Hrun. destruct (transport_up w); [|exact Hwf].
    exact (wf_insert _ _ a None (leads w) Hwf).
  - unfold generic.form_post. fold (bound_form r None). rewrite Hv.
    exact Hwf.
Qed.

Lemma form_post_update_wf (r : HttpRequest) (pk : Z) (old : Lead) :
  Objects.get pk (rows (leads w)) = Some old ->
  wf_world
    (snd (generic.form_post LeadUpdateView.template_name
            (generic.form_valid LeadUpdateView.get_success_url)
            (Some old) r w)).
Proof.
  intros Hg. destruct (get_some_id _ _ _ Hg) as [Hid _].
  unfold generic.form_post. fold (bound_form r (Some old)).
  destruct (Forms.is_valid (bound_form r (Some old))) eqn:Hv; [|exact Hwf].
  destruct (save_valid (post_data r) (Some old) w Hv) as [a [_ [_ Hsave]]].
  unfold generic.form_valid, bind, bound_form. rewrite Hsave.
  unfold wf_world, set_leads. cbn [snd leads].
  apply (wf_update _ old); [exact Hwf|]. cbn [id]. rewrite Hid. exact Hg.
Qed.

Lemma create_view_wf (r : HttpRequest) :
  wf_world (snd (LeadCreateView.as_view r w)).
Proof.
  unfold LeadCreateView.as_view, generic.LoginRequiredMixin.
  destruct (is_authenticated (user r)); [|exact Hwf].
  unfold generic.dispatch.
  destruct (method r); simpl; try exact Hwf; apply form_post_create_wf.
Qed.

Lemma update_view_wf (pk : Z) (r : HttpRequest) :
  wf_world (snd (LeadUpdateView.as_view pk r w)).
Proof.
  unfold LeadUpdateView.as_view, generic.LoginRequiredMixin.
  destruct (is_authenticated (user r)); [|exact Hwf].
  unfold generic.dispatch, LeadUpdateView.queryset.
  destruct (Objects.get pk (rows (leads w))) as [old|] eqn:Hg.
  - destruct (method r); simpl; try exact Hwf; unfold bind;
      rewrite (get_object_found pk w old Hg); try exact Hwf;
      apply (form_post_update_wf r pk old Hg).
  - destruct (method r); simpl; try exact Hwf; unfold bind;
      rewrite (get_object_missing pk w Hg); exact Hwf.
Qed.

Lemma delete_view_wf (pk : Z) (r : HttpRequest) :
  wf_world (snd (LeadDeleteView.as_view pk r w)).
Proof.
  unfold LeadDeleteView.as_view, generic.LoginRequiredMixin.
  destruct (is_authenticated (user r)); [|exact Hwf].
  unfold generic.dispatch, LeadDeleteView.queryset.
  destruct (Objects.get pk (rows (leads w))) as [old|] eqn:Hg.
  - destruct (method r); simpl; try exact Hwf; unfold bind;
      rewrite (get_object_found pk w old Hg); try exact Hwf;
      exact (wf_delete (id old) (leads w) Hwf).
  - destruct (method r); simpl; try exact Hwf; unfold bind;
      rewrite (get_object_missing pk w Hg); exact Hwf.
Qed.

Lemma read_views_keep_world (pk : Z) (r : HttpRequest) :
  snd (LandingPageView.as_view r w) = w /\
  snd (LeadListView.as_view r w) = w /\
  snd (LeadDetailView.as_view pk r w) = w.
Proof.
  unfold LandingPageView.as_view, LeadListView.as_view,
    LeadDetailView.as_view, generic.LoginRequiredMixin, generic.dispatch,
    LeadDetailView.queryset.
  repeat split.
  - destruct (method r); reflexivity.
  - destruct (is_authenticated (user r)); [|reflexivity].
    destruct (method r); reflexivity.
  - destruct (is_authenticated (user r)); [|reflexivity].
    destruct (Objects.get pk (rows (leads w))) as [l|] eqn:Hg;
      destruct (method r); simpl; try reflexivity; unfold bind;
      rewrite ?(get_object_found pk w l Hg), ?(get_object_missing pk w Hg);
      reflexivity.
Qed.

(** Unique primary keys below the counter hold of the empty table and
    after every request to every handler. *)
Lemma handlers_keep_wf (pk : Z) (r : HttpRequest) :
  Forall (fun view => wf_world (snd (view r w)))
    (LandingPageView.as_view :: protected_views pk).
Proof.
  destruct (read_views_keep_world pk r) as [H1 [H2 H3]].
  unfold protected_views.
  repeat (apply Forall_cons || apply Forall_nil).
  - rewrite H1. exact Hwf.
  - rewrite H2. exact Hwf.
  - rewrite H3. exact Hwf.
  - apply create_view_wf.
  - apply update_view_wf.
  - apply delete_view_wf.
Qed.

End Invariant.

(** ** The claims *)

(** C1, as stated: when the mail transport raises during a create
    submission that passed validation, the new record is persisted and
    only the notification is lost.  On the test fixture behind a refusing
    transport the submission validates, the handler raises, and the table
    holds no new row. *)
Lemma create_mail_failure_persists_nothing :
  Forms.is_valid
    (bound_form (post_by (AuthenticatedUser 1) submission) None) = true /\
  fst (LeadCreateView.as_view (post_by (AuthenticatedUser 1) submission)
         fixture_mail_down)
  = Raise SMTPException /\
  ~ (exists l,
       rows (leads (snd (LeadCreateView.as_view
                           (post_by (AuthenticatedUser 1) submission)
                           fixture_mail_down)))
       = rows (leads fixture_mail_down) ++ [l]) /\
  Objects.count
    (leads (snd (LeadCreateView.as_view
                   (post_by (AuthenticatedUser 1) submission)
                   fixture_mail_down)))
  = Objects.count (leads fixture_mail_down).
Proof.
  split; [reflexivity|]. split; [reflexivity|]. split; [|reflexivity].
  intros [l H]. vm_compute in H. discriminate.
Qed.

(** C1, amended: the create handler dispatches the notification before it
    persists the record.  If the mail transport raises during a create
    submission that passed validation, the exception propagates
    unhandled (a server error), no record is persisted and no message is
    recorded: the world is left as it was. *)
Theorem create_notifies_before_persisting (r : HttpRequest) (w : World) :
  is_authenticated (user r) = true ->
  method r = POST ->
  Forms.is_valid (Forms.LeadForm (post_data r)) = true ->
  transport_up w = false ->
  LeadCreateView.as_view r w = (Raise SMTPException, w) /\
  get_response (LeadCreateView.as_view r) w = (HttpResponseServerError, w).
Proof.
  intros Ha Hm Hv Hdown.
  destruct (create_post_valid r w Ha Hm Hv) as [a [_ [_ Hrun]]].
  rewrite Hdown in Hrun. unfold get_response. rewrite Hrun. auto.
Qed.

Lemma create_notifies_before_persisting_witness :
  LeadCreateView.as_view (post_by (AuthenticatedUser 1) submission)
    fixture_mail_down
  = (Raise SMTPException, fixture_mail_down) /\
  get_response
    (LeadCreateView.as_view (post_by (AuthenticatedUser 1) submission))
    fixture_mail_down
  = (HttpResponseServerError, fixture_mail_down).
Proof.
  apply (create_notifies_before_persisting
           (post_by (AuthenticatedUser 1) submission) fixture_mail_down);
    reflexivity.
Defined.

(** C2, as stated: every create POST whose fields pass validation
    persists one new record, dispatches the notification and answers with
    the redirect to the lead list.  On the test fixture behind a refusing
    transport an authenticated submission that validates is answered with
    a server error, and there is no world in which it was answered with
    the redirect, a record added and the message sent. *)
Lemma create_post_with_mail_down_creates_nothing :
  is_authenticated (user (post_by (AuthenticatedUser 1) submission)) = true /\
  method (post_by (AuthenticatedUser 1) submission) = POST /\
  Forms.is_valid
    (Forms.LeadForm (post_data (post_by (AuthenticatedUser 1) submission)))
  = true /\
  wf_world fixture_mail_down /\
  get_response
    (LeadCreateView.as_view (post_by (AuthenticatedUser 1) submission))
    fixture_mail_down
  = (HttpResponseServerError, fixture_mail_down) /\
  ~ (exists (l : Lead) (w' : World),
       get_response
         (LeadCreateView.as_view (post_by (AuthenticatedUser 1) submission))
         fixture_mail_down
       = (HttpResponseRedirect (reverse "leads:lead-list"), w') /\
       rows (leads w') = rows (leads fixture_mail_down) ++ [l] /\
       outbox w' = outbox fixture_mail_down ++ [lead_created_mail]).
Proof.
  split; [reflexivity|]. split; [reflexivity|]. split; [reflexivity|].
  split.
  { split; simpl.
    - constructor; [simpl; tauto | constructor].
    - constructor; [simpl; lia | constructor]. }
  split; [reflexivity|].
  intros [l [w' [H _]]]. vm_compute in H. discriminate.
Qed.

(** C2, amended: a create POST by an authenticated user whose fields pass
    validation and whose notification the mail transport accepts
    persists exactly one new record carrying the submitted values (it is
    the one [last()] returns), hands the notification to the transport,
    and answers with the redirect to the lead list. *)
Theorem create_post_persists_notifies_redirects
  (r : HttpRequest) (w : World) :
  is_authenticated (user r) = true ->
  method r = POST ->
  Forms.is_valid (Forms.LeadForm (post_data r)) = true ->
  transport_up w = true ->
  wf_world w ->
  exists (l : Lead) (w' : World),
    get_response (LeadCreateView.as_view r) w
    = (HttpResponseRedirect (reverse "leads:lead-list"), w') /\
    rows (leads w') = rows (leads w) ++ [l] /\
    ~ In (id l) (map id (rows (leads w))) /\
    Objects.count (leads w') = Objects.count (leads w) + 1 /\
    first_name l = data_first_name (post_data r) /\
    last_name l = data_last_name (post_data r) /\
    data_age (post_data r) = Some (age l) /\
    Objects.last (leads w') = Some l /\
    outbox w' = outbox w ++ [lead_created_mail] /\
    wf_world w'.
Proof.
  intros Ha Hm Hv Hup Hwf.
  destruct (create_post_valid r w Ha Hm Hv) as [a [Hage [_ Hrun]]].
  rewrite Hup in Hrun.
  set (fn := data_first_name (post_data r)) in *.
  set (ln := data_last_name (post_data r)) in *.
  exists (fst (Objects.insert fn ln a None (leads w))).
  eexists. split.
  { unfold get_response. rewrite Hrun. reflexivity. }
  simpl. repeat split; try reflexivity.
  - intros Hin. destruct Hwf as [_ Hlt]. rewrite Forall_forall in Hlt.
    apply in_map_iff in Hin. destruct Hin as [x [Hx Hin]].
    apply Hlt in Hin. lia.
  - unfold Objects.count. simpl. rewrite length_app. simpl. lia.
  - exact Hage.
  - exact (last_insert fn ln a None (leads w) Hwf).
  - destruct (wf_insert fn ln a None (leads w) Hwf) as [H _]. exact H.
  - destruct (wf_insert fn ln a None (leads w) Hwf) as [_ H]. exact H.
Qed.

Lemma create_post_persists_notifies_redirects_witness :
  exists (l : Lead) (w' : World),
    get_response
      (LeadCreateView.as_view (post_by (AuthenticatedUser 1) submission))
      fixture
    = (HttpResponseRedirect (reverse "leads:lead-list"), w') /\
    rows (leads w') = rows (leads fixture) ++ [l] /\
    ~ In (id l) (map id (rows (leads fixture))) /\
    Objects.count (leads w') = Objects.count (leads fixture) + 1 /\
    first_name l = "John" /\
    last_name l = "Doe" /\
    Some 25 = Some (age l) /\
    Objects.last (leads w') = Some l /\
    outbox w' = outbox fixture ++ [lead_created_mail] /\
    wf_world w'.
Proof.
  apply (create_post_persists_notifies_redirects
           (post_by (AuthenticatedUser 1) submission) fixture);
    try reflexivity.
  split; simpl.
  - constructor; [simpl; tauto | constructor].
  - constructor; [simpl; lia | constructor].
Defined.

(** C3: the form validates exactly when both names are non-empty and the
    age is an integer that is at least 0; for a negative age it does not
    validate and the errors of the age field are exactly the one message
    "Ensure this value is greater than or equal to 0.". *)
Theorem lead_form_validation (d : FormData) :
  (Forms.is_valid (Forms.LeadForm d) = true <->
   data_first_name d <> "" /\ data_last_name d <> "" /\
   exists a, data_age d = Some a /\ 0 <= a) /\
  (forall a, data_age d = Some a -> a < 0 ->
     Forms.is_valid (Forms.LeadForm d) = false /\
     Forms.errors_of "age" (Forms.LeadForm d)
     = ["Ensure this value is greater than or equal to 0."]).
Proof.
  split.
  - unfold Forms.LeadForm. rewrite is_valid_bound. apply full_clean_nil.
  - intros a Ha Hlt. split.
    + destruct (Forms.is_valid (Forms.LeadForm d)) eqn:Hv; [|reflexivity].
      unfold Forms.LeadForm in Hv. apply is_valid_bound in Hv.
      apply full_clean_nil in Hv. destruct Hv as [_ [_ [b [Hb Hle]]]].
      rewrite Ha in Hb. inversion Hb. lia.
    + exact (negative_age_errors d None a Ha Hlt).
Qed.

Lemma lead_form_validation_witness :
  Forms.is_valid (Forms.LeadForm (mkData "Test" "User" (Some 30))) = true /\
  Forms.is_valid (Forms.LeadForm bad_submission) = false /\
  Forms.errors_of "age" (Forms.LeadForm bad_submission)
  = ["Ensure this value is greater than or equal to 0."].
Proof.
  split.
  - apply (proj1 (lead_form_validation (mkData "Test" "User" (Some 30)))).
    simpl. split; [discriminate|]. split; [discriminate|].
    exists 30. split; [reflexivity | lia].
  - apply (proj2 (lead_form_validation bad_submission) (-25));
      [reflexivity | lia].
Defined.



(** C5: an update POST by an authenticated user on an existing record
    with fields that pass validation overwrites the three fields of that
    record and keeps its primary key (and its agent); reading the record
    back returns the submitted values; every other record, the
    primary keys in the table, the record count and the outbox are
    unchanged; the answer is the redirect to the lead list. *)
Theorem update_post_overwrites_in_place
  (pk : Z) (r : HttpRequest) (w : World) (old : Lead) :
  is_authenticated (user r) = true ->
  method r = POST ->
  Objects.get pk (rows (leads w)) = Some old ->
  Forms.is_valid (Forms.LeadForm (post_data r)) = true ->
  exists (a : Z) (w' : World),
    data_age (post_data r) = Some a /\
    get_response (LeadUpdateView.as_view pk r) w
    = (HttpResponseRedirect (reverse "leads:lead-list"), w') /\
    Objects.get pk (rows (leads w'))
    = Some (mkLead pk (data_first_name (post_data r))
              (data_last_name (post_data r)) a (agent old)) /\
    (forall pk', pk' <> pk ->
       Objects.get pk' (rows (leads w')) = Objects.get pk' (rows (leads w))) /\
    map id (rows (leads w')) = map id (rows (leads w)) /\
    Objects.count (leads w') = Objects.count (leads w) /\
    outbox w' = outbox w.
Proof.
  intros Ha Hm Hg Hv.
  destruct (update_post_valid pk r w old Ha Hm Hg Hv) as [a [Hage [_ Hrun]]].
  exists a. eexists. split; [exact Hage|]. split.
  { unfold get_response. rewrite Hrun. reflexivity. }
  unfold set_leads. cbn [leads outbox]. repeat split.
  - apply (get_update_same pk _ old); [reflexivity | exact Hg].
  - intros pk' Hne. apply (get_update_other pk pk'); [reflexivity | exact Hne].
  - apply ids_update.
  - apply count_update.
Qed.

Lemma update_post_overwrites_in_place_witness :
  exists (a : Z) (w' : World),
    Some 25 = Some a /\
    get_response
      (LeadUpdateView.as_view 2
         (post_by (AuthenticatedUser 1) submission)) two_leads
    = (HttpResponseRedirect (reverse "leads:lead-list"), w') /\
    Objects.get 2 (rows (leads w'))
    = Some (mkLead 2 "John" "Doe" a (agent mary_major)) /\
    (forall pk', pk' <> 2 ->
       Objects.get pk' (rows (leads w'))
       = Objects.get pk' (rows (leads two_leads))) /\
    map id (rows (leads w')) = map id (rows (leads two_leads)) /\
    Objects.count (leads w') = Objects.count (leads two_leads) /\
    outbox w' = outbox two_leads.
Proof.
  apply (update_post_overwrites_in_place 2
           (post_by (AuthenticatedUser 1) submission) two_leads mary_major);
    reflexivity.
Defined.

(** C6: a delete POST by an authenticated user on an existing record
    removes that record: it can no longer be read, the record count
    decreases by exactly one (to zero when it was the only record), every
    other record and the outbox are unchanged, and the answer is a 302
    redirect to the lead list. *)
Theorem delete_post_removes_exactly_one
  (pk : Z) (r : HttpRequest) (w : World) (old : Lead) :
  is_authenticated (user r) = true ->
  method r = POST ->
  wf_world w ->
  Objects.get pk (rows (leads w)) = Some old ->
  exists w' : World,
    get_response (LeadDeleteView.as_view pk r) w
    = (HttpResponseRedirect (reverse "leads:lead-list"), w') /\
    status_code (fst (get_response (LeadDeleteView.as_view pk r) w)) = 302 /\
    Objects.get pk (rows (leads w')) = None /\
    Objects.count (leads w') = Objects.count (leads w) - 1 /\
    (Objects.count (leads w) = 1 -> Objects.count (leads w') = 0) /\
    (forall pk', pk' <> pk ->
       Objects.get pk' (rows (leads w')) = Objects.get pk' (rows (leads w))) /\
    outbox w' = outbox w /\
    wf_world w'.
Proof.
  intros Ha Hm Hwf Hg.
  pose proof (delete_post_found pk r w old Ha Hm Hg) as Hrun.
  pose proof (count_delete pk (leads w) old Hwf Hg) as Hcount.
  eexists. split.
  { unfold get_response. rewrite Hrun. reflexivity. }
  split.
  { unfold get_response. rewrite Hrun. reflexivity. }
  unfold set_leads. cbn [leads outbox]. split; [apply get_delete_same|].
  split; [exact Hcount|].
  split; [intros H1; rewrite Hcount, H1; reflexivity|].
  split; [intros pk' Hne; apply get_delete_other; exact Hne|].
  split; [reflexivity|].
  exact (wf_delete pk (leads w) Hwf).
Qed.

Lemma delete_post_removes_exactly_one_witness :
  exists w' : World,
    get_response
      (LeadDeleteView.as_view 1 (post_by (AuthenticatedUser 1) submission))
      fixture
    = (HttpResponseRedirect (reverse "leads:lead-list"), w') /\
    status_code
      (fst (get_response
              (LeadDeleteView.as_view 1
                 (post_by (AuthenticatedUser 1) submission)) fixture)) = 302 /\
    Objects.get 1 (rows (leads w')) = None /\
    Objects.count (leads w') = Objects.count (leads fixture) - 1 /\
    (Objects.count (leads fixture) = 1 -> Objects.count (leads w') = 0) /\
    (forall pk', pk' <> 1 ->
       Objects.get pk' (rows (leads w'))
       = Objects.get pk' (rows (leads fixture))) /\
    outbox w' = outbox fixture /\
    wf_world w'.
Proof.
  apply (delete_post_removes_exactly_one 1
           (post_by (AuthenticatedUser 1) submission) fixture john_doe);
    try reflexivity.
  split; simpl.
  - constructor; [simpl; tauto | constructor].
  - constructor; [simpl; lia | constructor].
Defined.

(** C7: a request without an authenticated user to the list, detail,
    create, update or delete handler, whatever its method and data, is
    answered with a 302 redirect to the login URL; the answer shows no
    lead and the world is left as it was. *)
Theorem anonymous_requests_are_redirected
  (pk : Z) (r : HttpRequest) (w : World) :
  is_authenticated (user r) = false ->
  Forall
    (fun view =>
       get_response (view r) w = (HttpResponseRedirect LoginUrl, w) /\
       status_code (fst (get_response (view r) w)) = 302 /\
       rendered_leads (fst (get_response (view r) w)) = [])
    (protected_views pk).
Proof.
  intros Ha.
  assert (H : forall view,
            get_response (generic.LoginRequiredMixin view r) w
            = (HttpResponseRedirect LoginUrl, w)).
  { intros view. unfold get_response.
    rewrite anonymous_redirected by exact Ha. reflexivity. }
  unfold protected_views, LeadListView.as_view, LeadDetailView.as_view,
    LeadCreateView.as_view, LeadUpdateView.as_view, LeadDeleteView.as_view.
  repeat constructor; rewrite H; reflexivity.
Qed.

Lemma anonymous_requests_are_redirected_witness :
  Forall
    (fun view =>
       get_response (view (post_by AnonymousUser submission)) two_leads
       = (HttpResponseRedirect LoginUrl, two_leads) /\
       status_code
         (fst (get_response (view (post_by AnonymousUser submission))
                 two_leads)) = 302 /\
       rendered_leads
         (fst (get_response (view (post_by AnonymousUser submission))
                 two_leads)) = [])
    (protected_views 2).
Proof.
  apply (anonymous_requests_are_redirected 2
           (post_by AnonymousUser submission) two_leads).
  reflexivity.
Defined.

(** C8: whenever a create submission succeeds (the handler answers with
    the redirect to the lead list), the message handed to the transport
    is the fixed one: sender "test@test.com", recipients
    ["test2@test.com"], and the fixed subject and text.  Any two
    successful create requests, whatever their users, data and worlds,
    send the same message. *)
Theorem create_notification_is_constant
  (r1 r2 : HttpRequest) (w1 w2 w1' w2' : World) :
  LeadCreateView.as_view r1 w1
  = (Ok (HttpResponseRedirect (reverse "leads:lead-list")), w1') ->
  LeadCreateView.as_view r2 w2
  = (Ok (HttpResponseRedirect (reverse "leads:lead-list")), w2') ->
  exists m : EmailMessage,
    outbox w1' = outbox w1 ++ [m] /\
    outbox w2' = outbox w2 ++ [m] /\
    from_email m = "test@test.com" /\
    recipient_list m = ["test2@test.com"] /\
    subject m = "A lead has been created" /\
    message m = "Go to the site to see the new lead".
Proof.
  intros H1 H2. exists lead_created_mail.
  split; [exact (create_success_outbox r1 w1 w1' H1)|].
  split; [exact (create_success_outbox r2 w2 w2' H2)|].
  repeat split.
Qed.

Lemma create_notification_is_constant_witness :
  exists m : EmailMessage,
    outbox
      (snd (LeadCreateView.as_view
              (post_by (AuthenticatedUser 1) submission) fixture))
    = outbox fixture ++ [m] /\
    outbox
      (snd (LeadCreateView.as_view
              (post_by (AuthenticatedUser 2) (mkData "Mary" "Major" (Some 41)))
              two_leads))
    = outbox two_leads ++ [m] /\
    from_email m = "test@test.com" /\
    recipient_list m = ["test2@test.com"] /\
    subject m = "A lead has been created" /\
    message m = "Go to the site to see the new lead".
Proof.
  apply (create_notification_is_constant
           (post_by (AuthenticatedUser 1) submission)
           (post_by (AuthenticatedUser 2) (mkData "Mary" "Major" (Some 41)))
           fixture two_leads); reflexivity.
Defined.

(** C9: a GET of the landing page, by an authenticated user or not, is
    answered with status 200 by the template "landing.html", and leaves
    the world as it was. *)
Theorem landing_get_renders_template (r : HttpRequest) (w : World) :
  method r = GET ->
  get_response (LandingPageView.as_view r) w
  = (TemplateResponse "landing.html" NoContext, w) /\
  status_code (fst (get_response (LandingPageView.as_view r) w)) = 200.
Proof.
  intros Hm.
  unfold get_response, LandingPageView.as_view, generic.dispatch.
  rewrite Hm. split; reflexivity.
Qed.

Lemma landing_get_renders_template_witness :
  (get_response (LandingPageView.as_view (get_by AnonymousUser)) two_leads
   = (TemplateResponse "landing.html" NoContext, two_leads) /\
   status_code
     (fst (get_response (LandingPageView.as_view (get_by AnonymousUser))
             two_leads)) = 200) /\
  (get_response (LandingPageView.as_view (get_by (AuthenticatedUser 1)))
     two_leads
   = (TemplateResponse "landing.html" NoContext, two_leads) /\
   status_code
     (fst (get_response
             (LandingPageView.as_view (get_by (AuthenticatedUser 1)))
             two_leads)) = 200).
Proof.
  split.
  - apply (landing_get_renders_template (get_by AnonymousUser) two_leads).
    reflexivity.
  - apply (landing_get_renders_template (get_by (AuthenticatedUser 1))
             two_leads).
    reflexivity.
Defined.

(** C10: the list, detail, update and delete handlers work on all lead
    records and never look at who asks.  Sent by any two authenticated
    users, the same request gets the same answer and leaves the same
    world; the list shows every record of the table; and whatever the
    agent of a record, any authenticated user can read it, overwrite it
    and delete it. *)
Theorem handlers_ignore_the_requesting_user
  (pk u1 u2 : Z) (r : HttpRequest) (w : World) :
  let r1 := with_user (AuthenticatedUser u1) r in
  let r2 := with_user (AuthenticatedUser u2) r in
  (LeadListView.as_view r1 w = LeadListView.as_view r2 w /\
   LeadDetailView.as_view pk r1 w = LeadDetailView.as_view pk r2 w /\
   LeadUpdateView.as_view pk r1 w = LeadUpdateView.as_view pk r2 w /\
   LeadDeleteView.as_view pk r1 w = LeadDeleteView.as_view pk r2 w) /\
  (method r = GET ->
   LeadListView.as_view r1 w
   = (Ok (TemplateResponse "leads/lead_list.html"
            (ObjectListContext "leads" (Objects.all (leads w)))), w)) /\
  (forall l,
     Objects.get pk (rows (leads w)) = Some l ->
     (method r = GET ->
      LeadDetailView.as_view pk r1 w
      = (Ok (TemplateResponse "leads/lead_detail.html"
               (ObjectContext "lead" l)), w)) /\
     (method r = POST ->
      Forms.is_valid (Forms.LeadForm (post_data r)) = true ->
      exists l',
        Objects.get pk (rows (leads (snd (LeadUpdateView.as_view pk r1 w))))
        = Some l' /\
        first_name l' = data_first_name (post_data r) /\
        last_name l' = data_last_name (post_data r) /\
        data_age (post_data r) = Some (age l') /\
        agent l' = agent l) /\
     (method r = POST ->
      Objects.get pk (rows (leads (snd (LeadDeleteView.as_view pk r1 w))))
      = None)).
Proof.
  cbv zeta. split; [|split].
  - repeat split; reflexivity.
  - intros Hm. apply (list_get (with_user (AuthenticatedUser u1) r) w);
      [reflexivity | exact Hm].
  - intros l Hg. split; [|split].
    + intros Hm.
      apply (detail_get_found pk (with_user (AuthenticatedUser u1) r) w l);
        [reflexivity | exact Hm | exact Hg].
    + intros Hm Hv.
      destruct (update_post_valid pk (with_user (AuthenticatedUser u1) r) w l
                  eq_refl Hm Hg Hv) as [a [Hage [_ Hrun]]].
      rewrite Hrun. unfold set_leads. cbn [snd leads].
      eexists. split.
      * apply (get_update_same pk _ l); [reflexivity | exact Hg].
      * simpl. repeat split. exact Hage.
    + intros Hm.
      rewrite (delete_post_found pk (with_user (AuthenticatedUser u1) r) w l
                 eq_refl Hm Hg).
      unfold set_leads. cbn [snd leads]. apply get_delete_same.
Qed.

Lemma handlers_ignore_the_requesting_user_witness :
  LeadListView.as_view (with_user (AuthenticatedUser 1) (get_by AnonymousUser))
    two_leads
  = (Ok (TemplateResponse "leads/lead_list.html"
           (ObjectListContext "leads" [john_doe; mary_major])), two_leads) /\
  LeadDetailView.as_view 2
    (with_user (AuthenticatedUser 1) (get_by AnonymousUser)) two_leads
  = (Ok (TemplateResponse "leads/lead_detail.html"
           (ObjectContext "lead" mary_major)), two_leads) /\
  Objects.get 2
    (rows (leads (snd (LeadDeleteView.as_view 2
                         (with_user (AuthenticatedUser 1)
                            (post_by AnonymousUser submission)) two_leads))))
  = None.
Proof.
  pose proof (handlers_ignore_the_requesting_user 2 1 7
                (get_by AnonymousUser) two_leads) as [_ [Hlist Hget]].
  pose proof (handlers_ignore_the_requesting_user 2 1 7
                (post_by AnonymousUser submission) two_leads) as [_ [_ Hpost]].
  split; [exact (Hlist eq_refl)|].
  split.
  - exact (proj1 (Hget mary_major eq_refl) eq_refl).
  - exact (proj2 (proj2 (Hpost mary_major eq_refl)) eq_refl).
Defined.

(** ** Every outcome of the writing handlers *)

Section Outcomes.

Local Ltac plain := split; [discriminate | simpl; discriminate].

(** A PUT reaches the form code with no data, so it never validates: the
    form is rendered again with its errors. *)
Lemma put_rerenders (template_name : string)
  (form_valid : Forms.LeadModelForm -> M HttpResponse)
  (object : option Lead) (r : HttpRequest) (w : World) :
  generic.form_post template_name form_valid object (generic.put_request r) w
  = (Ok (TemplateResponse template_name
           (FormContext {| Forms.data := Some generic.no_data;
                           Forms.instance := object |})), w).
Proof. reflexivity. Qed.

(** The create handler either answers without touching anything, or
    fails on the transport before saving, or sends and saves. *)
Lemma create_cases (r : HttpRequest) (w : World) :
  (exists resp,
     LeadCreateView.as_view r w = (Ok resp, w) /\
     plain_answer resp /\
     ~ (is_authenticated (user r) = true /\ method r = POST /\
        Forms.is_valid (bound_form r None) = true)) \/
  (is_authenticated (user r) = true /\ method r = POST /\
   Forms.is_valid (bound_form r None) = true /\
   ((transport_up w = false /\
     LeadCreateView.as_view r w = (Raise SMTPException, w)) \/
    (transport_up w = true /\
     exists a,
       data_age (post_data r) = Some a /\ 0 <= a /\
       LeadCreateView.as_view r w =
       (Ok (HttpResponseRedirect (reverse "leads:lead-list")),
        created (data_first_name (post_data r))
          (data_last_name (post_data r)) a w)))).
Proof.
  destruct (is_authenticated (user r)) eqn:Ha.
  2:{ left. unfold LeadCreateView.as_view.
      rewrite anonymous_redirected by exact Ha.
      eexists. split; [reflexivity|]. split; [plain|].
      intros [H _]. discriminate. }
  destruct (method r) eqn:Hm.
  3:{ destruct (Forms.is_valid (bound_form r None)) eqn:Hv.
      - right. split; [reflexivity|]. split; [reflexivity|].
        split; [reflexivity|].
        destruct (create_post_valid r w Ha Hm Hv) as [a [Hage [Hle Hrun]]].
        rewrite Hrun. destruct (transport_up w).
        + right. split; [reflexivity|]. exists a. auto.
        + left. auto.
      - left. rewrite (create_post_invalid r w Ha Hm Hv).
        eexists. split; [reflexivity|]. split; [plain|].
        intros [_ [_ H]]. discriminate. }
  all: left; unfold LeadCreateView.as_view;
    rewrite authenticated_runs by exact Ha;
    unfold generic.dispatch; rewrite Hm; cbn [generic.CreateView
      generic.TemplateView generic.get generic.post generic.put
      generic.delete];
    rewrite ?put_rerenders;
    eexists; (split; [reflexivity|]); (split; [plain|]);
    intros [_ [H _]]; discriminate.
Qed.

(** The update handler answers without touching anything, reports that
    the record is missing, or overwrites the record. *)
Lemma update_cases (pk : Z) (r : HttpRequest) (w : World) :
  (exists resp,
     LeadUpdateView.as_view pk r w = (Ok resp, w) /\
     plain_answer resp) \/
  (LeadUpdateView.as_view pk r w = (Raise Http404, w) /\
   is_authenticated (user r) = true /\
   Objects.get pk (rows (leads w)) = None) \/
  (exists old a,
     is_authenticated (user r) = true /\ method r = POST /\
     Objects.get pk (rows (leads w)) = Some old /\
     Forms.is_valid (bound_form r (Some old)) = true /\
     data_age (post_data r) = Some a /\ 0 <= a /\
     LeadUpdateView.as_view pk r w =
     (Ok (HttpResponseRedirect (reverse "leads:lead-list")),
      set_leads
        (Objects.update
           (mkLead pk (data_first_name (post_data r))
              (data_last_name (post_data r)) a (agent old))
           (leads w)) w)).
Proof.
  destruct (is_authenticated (user r)) eqn:Ha.
  2:{ left. unfold LeadUpdateView.as_view.
      rewrite anonymous_redirected by exact Ha.
      eexists. split; [reflexivity | plain]. }
  destruct (Objects.get pk (rows (leads w))) as [old|] eqn:Hg.
  - destruct (method r) eqn:Hm.
    3:{ destruct (Forms.is_valid (bound_form r (Some old))) eqn:Hv.
        - right. right.
          destruct (update_post_valid pk r w old Ha Hm Hg Hv)
            as [a [Hage [Hle Hrun]]].
          exists old, a. auto 10.
        - left. rewrite (update_post_invalid pk r w old Ha Hm Hg Hv).
          eexists. split; [reflexivity | plain]. }
    all: left; unfold LeadUpdateView.as_view;
      rewrite authenticated_runs by exact Ha;
      unfold generic.dispatch, LeadUpdateView.queryset; rewrite Hm;
      cbn [generic.UpdateView generic.get generic.post generic.put
        generic.delete];
      unfold bind; rewrite ?(get_object_found pk w old Hg);
      rewrite ?put_rerenders;
      eexists; split; [reflexivity | plain].
  - unfold LeadUpdateView.as_view.
    rewrite authenticated_runs by exact Ha.
    unfold generic.dispatch, LeadUpdateView.queryset.
    destruct (method r) eqn:Hm;
      cbn [generic.UpdateView generic.get generic.post generic.put
        generic.delete];
      unfold bind; rewrite ?(get_object_missing pk w Hg);
      try (right; left; auto; fail);
      (left; eexists; split; [reflexivity | plain]).
Qed.

(** The delete handler answers without touching anything, reports that
    the record is missing, or removes the record. *)
Lemma delete_cases (pk : Z) (r : HttpRequest) (w : World) :
  (exists resp,
     LeadDeleteView.as_view pk r w = (Ok resp, w) /\
     plain_answer resp) \/
  (LeadDeleteView.as_view pk r w = (Raise Http404, w) /\
   is_authenticated (user r) = true /\
   Objects.get pk (rows (leads w)) = None) \/
  (exists old,
     is_authenticated (user r) = true /\
     (method r = POST \/ method r = DELETE) /\
     Objects.get pk (rows (leads w)) = Some old /\
     LeadDeleteView.as_view pk r w =
     (Ok (HttpResponseRedirect (reverse "leads:lead-list")),
      set_leads (Objects.delete pk (leads w)) w)).
Proof.
  unfold LeadDeleteView.as_view, generic.LoginRequiredMixin.
  destruct (is_authenticated (user r)); simpl.
  2:{ left. eexists. split; [reflexivity | plain]. }
  unfold generic.dispatch, LeadDeleteView.queryset.
  destruct (Objects.get pk (rows (leads w))) as [old|] eqn:Hg.
  - destruct (get_some_id _ _ _ Hg) as [Hid _].
    destruct (method r) eqn:Hm; simpl; unfold bind;
      rewrite ?(get_object_found pk w old Hg); rewrite ?Hid;
      try (left; eexists; split; [reflexivity | plain]);
      right; right; exists old; auto.
  - destruct (method r) eqn:Hm; simpl; unfold bind;
      rewrite ?(get_object_missing pk w Hg);
      try (right; left; auto; fail);
      (left; eexists; split; [reflexivity | plain]).
Qed.

End Outcomes.

(** ** More on the object manager *)

Section MoreObjectsFacts.

(** With unique keys below the counter, the row just inserted is found
    under its key. *)
Lemma get_insert (fn ln : string) (a : Z) (ag : option Z) (t : Table) :
  Objects.wf t ->
  Objects.get (next_id t) (rows (snd (Objects.insert fn ln a ag t)))
  = Some (fst (Objects.insert fn ln a ag t)).
Proof.
  intros [_ Hlt]. unfold Objects.get, Objects.insert. simpl.
  induction (rows t) as [|x xs IH]; simpl.
  - rewrite Z.eqb_refl. reflexivity.
  - inversion Hlt as [|y ys Hx Hxs]; subst.
    assert (E : (id x =? next_id t) = false) by (apply Z.eqb_neq; lia).
    rewrite E. apply IH. exact Hxs.
Qed.

Lemma get_insert_other (pk : Z) (fn ln : string) (a : Z) (ag : option Z)
  (t : Table) (l : Lead) :
  Objects.get pk (rows t) = Some l ->
  Objects.get pk (rows (snd (Objects.insert fn ln a ag t))) = Some l.
Proof.
  unfold Objects.get, Objects.insert. simpl.
  induction (rows t) as [|x xs IH]; simpl; [discriminate|].
  destruct (id x =? pk); [auto | exact IH].
Qed.

(** Deleting the row just inserted gives the old rows back. *)
Lemma delete_insert (fn ln : string) (a : Z) (ag : option Z) (t : Table) :
  Objects.wf t ->
  rows (Objects.delete (next_id t) (snd (Objects.insert fn ln a ag t)))
  = rows t.
Proof.
  intros [_ Hlt]. unfold Objects.delete, Objects.insert. simpl.
  rewrite filter_app. simpl. rewrite Z.eqb_refl. simpl.
  rewrite app_nil_r. apply filter_absent.
  intros Hin. apply in_map_iff in Hin. destruct Hin as [x [Hx Hin]].
  rewrite Forall_forall in Hlt. apply Hlt in Hin. lia.
Qed.

(** Of two updates of the same key the second one decides. *)
Lemma update_update (l1 l2 : Lead) (t : Table) :
  id l1 = id l2 ->
  Objects.update l2 (Objects.update l1 t) = Objects.update l2 t.
Proof.
  intros Hid. unfold Objects.update. simpl. f_equal.
  rewrite map_map. apply map_ext. intros x.
  rewrite Hid. destruct (id x =? id l2) eqn:E; [|rewrite E; reflexivity].
  rewrite Hid, Z.eqb_refl. reflexivity.
Qed.

Lemma count_delete_le (pk : Z) (t : Table) :
  Objects.count (Objects.delete pk t) <= Objects.count t.
Proof.
  unfold Objects.count, Objects.delete. simpl.
  pose proof (filter_length_le (fun r => negb (id r =? pk)) (rows t)). lia.
Qed.

End MoreObjectsFacts.

(** ** Further properties of the handlers *)

(** X1: for an authenticated user, a request for a record that is not in
    the table is answered "not found" by the detail, update and delete
    handlers, for every method they have a handler for, and changes
    nothing; in particular a delete of a missing record is not answered
    with the redirect. *)
Theorem missing_record_is_not_found (pk : Z) (r : HttpRequest) (w : World) :
  is_authenticated (user r) = true ->
  Objects.get pk (rows (leads w)) = None ->
  (In (method r) [GET; HEAD] ->
   get_response (LeadDetailView.as_view pk r) w = (HttpResponseNotFound, w)) /\
  (In (method r) [GET; HEAD; POST; PUT] ->
   get_response (LeadUpdateView.as_view pk r) w = (HttpResponseNotFound, w)) /\
  (In (method r) [GET; HEAD; POST; DELETE] ->
   get_response (LeadDeleteView.as_view pk r) w = (HttpResponseNotFound, w)).
Proof.
  intros Ha Hg.
  unfold get_response, LeadDetailView.as_view, LeadUpdateView.as_view,
    LeadDeleteView.as_view.
  rewrite !authenticated_runs by exact Ha.
  unfold generic.dispatch, LeadDetailView.queryset, LeadUpdateView.queryset,
    LeadDeleteView.queryset.
  repeat split; intros Hin; simpl in Hin;
    destruct (method r); simpl; unfold bind;
    rewrite ?(get_object_missing pk w Hg); try reflexivity;
    exfalso; intuition discriminate.
Qed.

Lemma missing_record_is_not_found_witness :
  get_response (LeadDetailView.as_view 5 (get_by (AuthenticatedUser 1)))
    fixture = (HttpResponseNotFound, fixture) /\
  get_response
    (LeadUpdateView.as_view 5 (post_by (AuthenticatedUser 1) submission))
    fixture = (HttpResponseNotFound, fixture) /\
  get_response
    (LeadDeleteView.as_view 5 (post_by (AuthenticatedUser 1) submission))
    fixture = (HttpResponseNotFound, fixture).
Proof.
  pose proof (missing_record_is_not_found 5 (get_by (AuthenticatedUser 1))
                fixture eq_refl eq_refl) as [Hd _].
  pose proof (missing_record_is_not_found 5
                (post_by (AuthenticatedUser 1) submission)
                fixture eq_refl eq_refl) as [_ [Hu Hx]].
  split; [apply Hd; simpl; tauto|].
  split; [apply Hu; simpl; tauto | apply Hx; simpl; tauto].
Defined.

(** X2: deleting is not repeatable: after a delete that went through,
    the same request is answered "not found" and changes nothing more. *)
Theorem second_delete_is_not_found
  (pk : Z) (r : HttpRequest) (w : World) (old : Lead) :
  is_authenticated (user r) = true ->
  method r = POST ->
  Objects.get pk (rows (leads w)) = Some old ->
  exists w1 : World,
    get_response (LeadDeleteView.as_view pk r) w
    = (HttpResponseRedirect (reverse "leads:lead-list"), w1) /\
    get_response (LeadDeleteView.as_view pk r) w1
    = (HttpResponseNotFound, w1).
Proof.
  intros Ha Hm Hg. eexists. split.
  - unfold get_response. rewrite (delete_post_found pk r w old Ha Hm Hg).
    reflexivity.
  - unfold get_response. rewrite delete_post_missing; try assumption.
    + reflexivity.
    + unfold set_leads. cbn [leads]. apply get_delete_same.
Qed.

Lemma second_delete_is_not_found_witness :
  exists w1 : World,
    get_response
      (LeadDeleteView.as_view 1 (post_by (AuthenticatedUser 1) submission))
      fixture
    = (HttpResponseRedirect (reverse "leads:lead-list"), w1) /\
    get_response
      (LeadDeleteView.as_view 1 (post_by (AuthenticatedUser 1) submission))
      w1
    = (HttpResponseNotFound, w1).
Proof.
  apply (second_delete_is_not_found 1
           (post_by (AuthenticatedUser 1) submission) fixture john_doe);
    reflexivity.
Defined.

(** X3: the landing, list and detail handlers never change anything,
    whatever the method, the user and the data; and no handler changes
    anything on a request whose method is none of POST, PUT and DELETE
    (a GET of the delete page deletes nothing). *)
Theorem reads_change_nothing (pk : Z) (r : HttpRequest) (w : World) :
  Forall (fun view => snd (view r w) = w)
    [LandingPageView.as_view; LeadListView.as_view;
     LeadDetailView.as_view pk] /\
  (method r <> POST -> method r <> PUT -> method r <> DELETE ->
   Forall (fun view => snd (view r w) = w)
     [LeadCreateView.as_view; LeadUpdateView.as_view pk;
      LeadDeleteView.as_view pk]).
Proof.
  split.
  - destruct (read_views_keep_world w pk r) as [H1 [H2 H3]].
    repeat (apply Forall_cons || apply Forall_nil); assumption.
  - intros Hpost Hput Hdel.
    repeat (apply Forall_cons || apply Forall_nil).
    + destruct (create_cases r w) as [[resp [Hrun _]]|[_ [Hs _]]];
        [rewrite Hrun; reflexivity | contradiction].
    + destruct (update_cases pk r w)
        as [[resp [Hrun _]]|[[Hrun _]|[old [a [_ [Hs _]]]]]];
        [rewrite Hrun; reflexivity | rewrite Hrun; reflexivity
        | contradiction].
    + destruct (delete_cases pk r w)
        as [[resp [Hrun _]]|[[Hrun _]|[old [_ [[Hs|Hs] _]]]]];
        [rewrite Hrun; reflexivity | rewrite Hrun; reflexivity
        | contradiction | contradiction].
Qed.

Lemma reads_change_nothing_witness :
  Forall (fun view => snd (view (get_by (AuthenticatedUser 1)) two_leads)
                      = two_leads)
    [LeadCreateView.as_view; LeadUpdateView.as_view 2;
     LeadDeleteView.as_view 2].
Proof.
  apply (proj2 (reads_change_nothing 2 (get_by (AuthenticatedUser 1))
                  two_leads)); discriminate.
Defined.

(** X4: the create handler is all or nothing, for every request: either
    it leaves the world as it was and does not answer with the redirect
    to the list, or it answers with that redirect and has both appended
    one record, under the next primary key, and handed the fixed message
    to the transport.  A record without its message, or a message without
    its record, does not occur. *)
Theorem create_is_all_or_nothing (r : HttpRequest) (w : World) :
  (snd (LeadCreateView.as_view r w) = w /\
   fst (LeadCreateView.as_view r w)
   <> Ok (HttpResponseRedirect (reverse "leads:lead-list"))) \/
  (exists l : Lead,
     fst (LeadCreateView.as_view r w)
     = Ok (HttpResponseRedirect (reverse "leads:lead-list")) /\
     rows (leads (snd (LeadCreateView.as_view r w))) = rows (leads w) ++ [l] /\
     id l = next_id (leads w) /\
     next_id (leads (snd (LeadCreateView.as_view r w)))
     = next_id (leads w) + 1 /\
     outbox (snd (LeadCreateView.as_view r w))
     = outbox w ++ [lead_created_mail] /\
     first_name l = data_first_name (post_data r) /\
     last_name l = data_last_name (post_data r) /\
     data_age (post_data r) = Some (age l)).
Proof.
  destruct (create_cases r w)
    as [[resp [Hrun [Hne _]]]
       |[_ [_ [_ [[_ Hrun]|[_ [a [Hage [_ Hrun]]]]]]]]];
    rewrite Hrun.
  - left. split; [reflexivity|]. simpl. destruct Hne as [Hne _]. congruence.
  - left. split; [reflexivity | discriminate].
  - right. eexists. split; [reflexivity|]. simpl.
    repeat split. exact Hage.
Qed.

(** X5: the update handler never adds or removes a record, whatever the
    request: the primary keys in the table, the record count, the key
    counter and the outbox are as before, every record under another key
    is as before, and the record under the key of the route still exists
    with the agent it had. *)
Theorem update_never_adds_or_removes (pk : Z) (r : HttpRequest) (w : World) :
  map id (rows (leads (snd (LeadUpdateView.as_view pk r w))))
  = map id (rows (leads w)) /\
  Objects.count (leads (snd (LeadUpdateView.as_view pk r w)))
  = Objects.count (leads w) /\
  next_id (leads (snd (LeadUpdateView.as_view pk r w))) = next_id (leads w) /\
  outbox (snd (LeadUpdateView.as_view pk r w)) = outbox w /\
  (forall pk', pk' <> pk ->
     Objects.get pk' (rows (leads (snd (LeadUpdateView.as_view pk r w))))
     = Objects.get pk' (rows (leads w))) /\
  (forall l, Objects.get pk (rows (leads w)) = Some l ->
     exists l',
       Objects.get pk (rows (leads (snd (LeadUpdateView.as_view pk r w))))
       = Some l' /\ agent l' = agent l).
Proof.
  destruct (update_cases pk r w)
    as [[resp [Hrun _]]|[[Hrun _]|[old [a [_ [_ [Hg [_ [_ [_ Hrun]]]]]]]]]];
    rewrite Hrun; unfold set_leads; cbn [snd leads outbox].
  - repeat split; eauto.
  - repeat split; eauto.
  - split; [apply ids_update|]. split; [apply count_update|].
    split; [reflexivity|]. split; [reflexivity|]. split.
    + intros pk' Hne. apply (get_update_other pk pk'); [reflexivity|exact Hne].
    + intros l Hl. rewrite Hg in Hl. inversion Hl; subst l.
      eexists. split.
      * apply (get_update_same pk _ old); [reflexivity | exact Hg].
      * reflexivity.
Qed.

(** X6: the delete handler touches only the record of its route,
    whatever the request: every record under another key is as before,
    no row appears that was not there, the record count does not grow,
    and the key counter and the outbox are as before. *)
Theorem delete_touches_only_its_record
  (pk : Z) (r : HttpRequest) (w : World) :
  (forall pk', pk' <> pk ->
     Objects.get pk' (rows (leads (snd (LeadDeleteView.as_view pk r w))))
     = Objects.get pk' (rows (leads w))) /\
  (forall l, In l (rows (leads (snd (LeadDeleteView.as_view pk r w)))) ->
             In l (rows (leads w))) /\
  Objects.count (leads (snd (LeadDeleteView.as_view pk r w)))
  <= Objects.count (leads w) /\
  next_id (leads (snd (LeadDeleteView.as_view pk r w))) = next_id (leads w) /\
  outbox (snd (LeadDeleteView.as_view pk r w)) = outbox w.
Proof.
  destruct (delete_cases pk r w)
    as [[resp [Hrun _]]|[[Hrun _]|[old [_ [_ [Hg Hrun]]]]]];
    rewrite Hrun; unfold set_leads; cbn [snd leads outbox].
  - repeat split; auto; lia.
  - repeat split; auto; lia.
  - split; [intros pk' Hne; apply get_delete_other; exact Hne|].
    split.
    { intros l Hin. unfold Objects.delete in Hin. simpl in Hin.
      apply filter_In in Hin. tauto. }
    split; [apply count_delete_le|]. split; reflexivity.
Qed.

(** X7: a server error comes from nowhere but the mail transport: the
    landing, list, detail, update and delete handlers never answer with
    status 500, and the create handler does exactly when an authenticated
    user POSTs a form that validates while the transport refuses the
    message.  A PUT never does: its form is bound to no data.  In
    particular [save] is never reached with a form that did not
    validate. *)
Theorem server_error_only_from_mail_failure
  (pk : Z) (r : HttpRequest) (w : World) :
  Forall (fun view => status_code (fst (get_response (view r) w)) <> 500)
    [LandingPageView.as_view; LeadListView.as_view;
     LeadDetailView.as_view pk; LeadUpdateView.as_view pk;
     LeadDeleteView.as_view pk] /\
  (status_code (fst (get_response (LeadCreateView.as_view r) w)) = 500 <->
   is_authenticated (user r) = true /\ method r = POST /\
   Forms.is_valid (Forms.LeadForm (post_data r)) = true /\
   transport_up w = false).
Proof.
  split.
  - repeat (apply Forall_cons || apply Forall_nil).
    + unfold get_response, LandingPageView.as_view, generic.dispatch.
      destruct (method r); simpl; discriminate.
    + unfold get_response, LeadListView.as_view, generic.LoginRequiredMixin,
        generic.dispatch.
      destruct (is_authenticated (user r)); [|simpl; discriminate].
      destruct (method r); simpl; discriminate.
    + unfold get_response, LeadDetailView.as_view,
        generic.LoginRequiredMixin, generic.dispatch, LeadDetailView.queryset.
      destruct (is_authenticated (user r)); [|simpl; discriminate].
      destruct (Objects.get pk (rows (leads w))) as [l|] eqn:Hg;
        destruct (method r); simpl; try discriminate; unfold bind;
        rewrite ?(get_object_found pk w l Hg),
          ?(get_object_missing pk w Hg); simpl; discriminate.
    + unfold get_response.
      destruct (update_cases pk r w)
        as [[resp [Hrun [_ H500]]]
           |[[Hrun _]|[old [a [_ [_ [_ [_ [_ [_ Hrun]]]]]]]]]];
        rewrite Hrun; simpl; [exact H500 | discriminate | discriminate].
    + unfold get_response.
      destruct (delete_cases pk r w)
        as [[resp [Hrun [_ H500]]]|[[Hrun _]|[old [_ [_ [_ Hrun]]]]]];
        rewrite Hrun; simpl; [exact H500 | discriminate | discriminate].
  - unfold get_response.
    destruct (create_cases r w)
      as [[resp [Hrun [[_ H500] Hnot]]]
         |[Ha [Hs [Hv [[Hdown Hrun]|[Hup [a [_ [_ Hrun]]]]]]]]];
      rewrite Hrun; simpl.
    + split; [intros H; contradiction|].
      intros [Ha [Hs [Hv _]]]. exfalso. apply Hnot. auto.
    + split; [intros _; auto | reflexivity].
    + split; [discriminate|]. intros [_ [_ [_ Hdown]]]. congruence.
Qed.

(** X8: the last update wins: of two update submissions for the same
    record that both validate, the second one decides; the answer and the
    world are those of the second update alone.  In particular
    resubmitting the same form changes nothing further. *)
Theorem last_update_wins
  (pk : Z) (r1 r2 : HttpRequest) (w : World) (old : Lead) :
  is_authenticated (user r1) = true -> method r1 = POST ->
  is_authenticated (user r2) = true -> method r2 = POST ->
  Objects.get pk (rows (leads w)) = Some old ->
  Forms.is_valid (Forms.LeadForm (post_data r1)) = true ->
  Forms.is_valid (Forms.LeadForm (post_data r2)) = true ->
  LeadUpdateView.as_view pk r2 (snd (LeadUpdateView.as_view pk r1 w))
  = LeadUpdateView.as_view pk r2 w.
Proof.
  intros Ha1 Hm1 Ha2 Hm2 Hg Hv1 Hv2.
  destruct (update_post_valid pk r1 w old Ha1 Hm1 Hg Hv1)
    as [a1 [_ [_ Hrun1]]].
  rewrite Hrun1. cbn [snd].
  set (l1 := mkLead pk (data_first_name (post_data r1))
               (data_last_name (post_data r1)) a1 (agent old)).
  assert (Hg1 : Objects.get pk
                  (rows (leads (set_leads (Objects.update l1 (leads w)) w)))
                = Some l1).
  { unfold set_leads. cbn [leads].
    apply (get_update_same pk l1 old); [reflexivity | exact Hg]. }
  destruct (update_post_valid pk r2 _ l1 Ha2 Hm2 Hg1 Hv2)
    as [a2 [Hage2 [_ Hrun2]]].
  destruct (update_post_valid pk r2 w old Ha2 Hm2 Hg Hv2)
    as [a2' [Hage2' [_ Hrun2']]].
  rewrite Hrun2, Hrun2'.
  assert (a2' = a2) by congruence. subst a2'.
  unfold set_leads. cbn [leads outbox transport_up agent l1].
  rewrite update_update by reflexivity. reflexivity.
Qed.

Lemma last_update_wins_witness :
  LeadUpdateView.as_view 2 (post_by (AuthenticatedUser 7) submission)
    (snd (LeadUpdateView.as_view 2
            (post_by (AuthenticatedUser 1) (mkData "Ann" "Other" (Some 0)))
            two_leads))
  = LeadUpdateView.as_view 2 (post_by (AuthenticatedUser 7) submission)
      two_leads.
Proof.
  apply (last_update_wins 2
           (post_by (AuthenticatedUser 1) (mkData "Ann" "Other" (Some 0)))
           (post_by (AuthenticatedUser 7) submission) two_leads mary_major);
    reflexivity.
Defined.

(** X9: a lead that was created can be read back: after a create that
    went through, over a table with unique keys, the detail page of the
    new key shows a record with the submitted values and the list shows
    the old rows followed by it. *)
Theorem created_lead_can_be_read_back (r g : HttpRequest) (w : World) :
  is_authenticated (user r) = true -> method r = POST ->
  Forms.is_valid (Forms.LeadForm (post_data r)) = true ->
  transport_up w = true ->
  wf_world w ->
  is_authenticated (user g) = true -> method g = GET ->
  exists (l : Lead) (w' : World),
    LeadCreateView.as_view r w
    = (Ok (HttpResponseRedirect (reverse "leads:lead-list")), w') /\
    first_name l = data_first_name (post_data r) /\
    last_name l = data_last_name (post_data r) /\
    data_age (post_data r) = Some (age l) /\
    LeadDetailView.as_view (id l) g w'
    = (Ok (TemplateResponse "leads/lead_detail.html"
             (ObjectContext "lead" l)), w') /\
    LeadListView.as_view g w'
    = (Ok (TemplateResponse "leads/lead_list.html"
             (ObjectListContext "leads" (rows (leads w) ++ [l]))), w').
Proof.
  intros Ha Hm Hv Hup Hwf Hga Hgm.
  destruct (create_post_valid r w Ha Hm Hv) as [a [Hage [_ Hrun]]].
  rewrite Hup in Hrun. rewrite Hrun.
  set (fn := data_first_name (post_data r)) in *.
  set (ln := data_last_name (post_data r)) in *.
  exists (fst (Objects.insert fn ln a None (leads w))). eexists.
  split; [reflexivity|].
  split; [reflexivity|]. split; [reflexivity|]. split; [exact Hage|].
  split.
  - apply detail_get_found; [exact Hga | exact Hgm|].
    unfold set_leads. cbn [leads].
    exact (get_insert fn ln a None (leads w) Hwf).
  - rewrite (list_get g _ Hga Hgm). reflexivity.
Qed.

Lemma created_lead_can_be_read_back_witness :
  exists (l : Lead) (w' : World),
    LeadCreateView.as_view (post_by (AuthenticatedUser 1) submission) fixture
    = (Ok (HttpResponseRedirect (reverse "leads:lead-list")), w') /\
    first_name l = "John" /\
    last_name l = "Doe" /\
    Some 25 = Some (age l) /\
    LeadDetailView.as_view (id l) (get_by (AuthenticatedUser 2)) w'
    = (Ok (TemplateResponse "leads/lead_detail.html"
             (ObjectContext "lead" l)), w') /\
    LeadListView.as_view (get_by (AuthenticatedUser 2)) w'
    = (Ok (TemplateResponse "leads/lead_list.html"
             (ObjectListContext "leads" (rows (leads fixture) ++ [l]))), w').
Proof.
  apply (created_lead_can_be_read_back
           (post_by (AuthenticatedUser 1) submission)
           (get_by (AuthenticatedUser 2)) fixture);
    try reflexivity.
  split; simpl.
  - constructor; [simpl; tauto | constructor].
  - constructor; [simpl; lia | constructor].
Defined.

(** X10: deleting the lead that was just created gives the old rows
    back, but not the old world: the primary key stays used up and the
    notification stays sent. *)
Theorem deleting_the_created_lead_restores_the_rows
  (r d : HttpRequest) (w : World) :
  is_authenticated (user r) = true -> method r = POST ->
  Forms.is_valid (Forms.LeadForm (post_data r)) = true ->
  transport_up w = true ->
  wf_world w ->
  is_authenticated (user d) = true -> method d = POST ->
  exists (l : Lead) (w1 w2 : World),
    LeadCreateView.as_view r w
    = (Ok (HttpResponseRedirect (reverse "leads:lead-list")), w1) /\
    rows (leads w1) = rows (leads w) ++ [l] /\
    LeadDeleteView.as_view (id l) d w1
    = (Ok (HttpResponseRedirect (reverse "leads:lead-list")), w2) /\
    rows (leads w2) = rows (leads w) /\
    next_id (leads w2) = next_id (leads w) + 1 /\
    outbox w2 = outbox w ++ [lead_created_mail].
Proof.
  intros Ha Hm Hv Hup Hwf Hda Hdm.
  destruct (create_post_valid r w Ha Hm Hv) as [a [_ [_ Hrun]]].
  rewrite Hup in Hrun. rewrite Hrun.
  set (fn := data_first_name (post_data r)) in *.
  set (ln := data_last_name (post_data r)) in *.
  exists (fst (Objects.insert fn ln a None (leads w))). eexists. eexists.
  split; [reflexivity|]. split; [reflexivity|].
  split.
  - apply (delete_post_found _ d _
             (fst (Objects.insert fn ln a None (leads w))) Hda Hdm).
    unfold set_leads. cbn [leads].
    exact (get_insert fn ln a None (leads w) Hwf).
  - unfold set_leads. cbn [leads outbox].
    split; [exact (delete_insert fn ln a None (leads w) Hwf)|].
    split; reflexivity.
Qed.

Lemma deleting_the_created_lead_restores_the_rows_witness :
  exists (l : Lead) (w1 w2 : World),
    LeadCreateView.as_view (post_by (AuthenticatedUser 1) submission) fixture
    = (Ok (HttpResponseRedirect (reverse "leads:lead-list")), w1) /\
    rows (leads w1) = rows (leads fixture) ++ [l] /\
    LeadDeleteView.as_view (id l) (post_by (AuthenticatedUser 2) submission)
      w1
    = (Ok (HttpResponseRedirect (reverse "leads:lead-list")), w2) /\
    rows (leads w2) = rows (leads fixture) /\
    next_id (leads w2) = next_id (leads fixture) + 1 /\
    outbox w2 = outbox fixture ++ [lead_created_mail].
Proof.
  apply (deleting_the_created_lead_restores_the_rows
           (post_by (AuthenticatedUser 1) submission)
           (post_by (AuthenticatedUser 2) submission) fixture);
    try reflexivity.
  split; simpl.
  - constructor; [simpl; tauto | constructor].
  - constructor; [simpl; lia | constructor].
Defined.

(** X11: for an authenticated user, a GET or HEAD of the form pages
    shows and changes nothing: the create page renders an unbound form
    without errors, the update page renders the form for the record of
    the route, and the delete page renders the confirmation for that
    record, which is still there afterwards. *)
Theorem form_pages_show_and_keep
  (pk : Z) (r : HttpRequest) (w : World) (l : Lead) :
  is_authenticated (user r) = true ->
  In (method r) [GET; HEAD] ->
  Objects.get pk (rows (leads w)) = Some l ->
  LeadCreateView.as_view r w
  = (Ok (TemplateResponse "leads/lead_create.html"
           (FormContext {| Forms.data := None; Forms.instance := None |})),
     w) /\
  LeadUpdateView.as_view pk r w
  = (Ok (TemplateResponse "leads/lead_update.html"
           (FormContext {| Forms.data := None; Forms.instance := Some l |})),
     w) /\
  LeadDeleteView.as_view pk r w
  = (Ok (TemplateResponse "leads/lead_delete.html" (ObjectContext "object" l)),
     w) /\
  Forms.errors {| Forms.data := None; Forms.instance := Some l |} = [].
Proof.
  intros Ha Hin Hg.
  unfold LeadCreateView.as_view, LeadUpdateView.as_view,
    LeadDeleteView.as_view.
  rewrite !authenticated_runs by exact Ha.
  unfold generic.dispatch, LeadUpdateView.queryset, LeadDeleteView.queryset.
  simpl in Hin.
  destruct (method r); try (exfalso; intuition discriminate);
    simpl; unfold bind; rewrite !(get_object_found pk w l Hg);
    repeat split.
Qed.

Lemma form_pages_show_and_keep_witness :
  LeadDeleteView.as_view 2 (get_by (AuthenticatedUser 1)) two_leads
  = (Ok (TemplateResponse "leads/lead_delete.html"
           (ObjectContext "object" mary_major)), two_leads).
Proof.
  apply (form_pages_show_and_keep 2 (get_by (AuthenticatedUser 1)) two_leads
           mary_major); [reflexivity | simpl; tauto | reflexivity].
Defined.

(** X12: a method a handler has no code for is refused with status 405
    and changes nothing: the landing, list and detail pages take no
    submission, the form pages take no DELETE, the delete page takes no
    PUT, and no page takes PATCH or TRACE.  The refusal comes before the
    record of the route is looked up. *)
Theorem unsupported_methods_are_refused
  (pk : Z) (r : HttpRequest) (w : World) :
  (In (method r) [POST; PUT; PATCH; DELETE; TRACE] ->
   get_response (LandingPageView.as_view r) w = (HttpResponseNotAllowed, w)) /\
  (is_authenticated (user r) = true ->
   (In (method r) [POST; PUT; PATCH; DELETE; TRACE] ->
    get_response (LeadListView.as_view r) w = (HttpResponseNotAllowed, w) /\
    get_response (LeadDetailView.as_view pk r) w
    = (HttpResponseNotAllowed, w)) /\
   (In (method r) [PATCH; DELETE; TRACE] ->
    get_response (LeadCreateView.as_view r) w = (HttpResponseNotAllowed, w) /\
    get_response (LeadUpdateView.as_view pk r) w
    = (HttpResponseNotAllowed, w)) /\
   (In (method r) [PUT; PATCH; TRACE] ->
    get_response (LeadDeleteView.as_view pk r) w
    = (HttpResponseNotAllowed, w))).
Proof.
  split; [|intros Ha; split; [|split]]; intros Hin; simpl in Hin;
    unfold get_response, LandingPageView.as_view, LeadListView.as_view,
      LeadDetailView.as_view, LeadCreateView.as_view, LeadUpdateView.as_view,
      LeadDeleteView.as_view;
    rewrite ?authenticated_runs by exact Ha;
    unfold generic.dispatch;
    destruct (method r); try (exfalso; intuition discriminate);
    repeat split.
Qed.

(** ** Sequences of requests *)

Section Sequences.

Lemma get_response_world (view : M HttpResponse) (w : World) :
  snd (get_response view w) = snd (view w).
Proof.
  unfold get_response. destruct (view w) as [[resp|e] w'];
    [reflexivity | destruct e; reflexivity].
Qed.

Lemma valid_fields (d : FormData) (i : option Lead) (a : Z) :
  Forms.is_valid {| Forms.data := Some d; Forms.instance := i |} = true ->
  data_age d = Some a ->
  data_first_name d <> "" /\ data_last_name d <> "" /\ 0 <= a.
Proof.
  intros Hv Hage. apply is_valid_bound in Hv. apply full_clean_nil in Hv.
  destruct Hv as [H1 [H2 [b [Hb Hle]]]].
  assert (b = a) by congruence. subst b. auto.
Qed.

(** What serving one request can do to the world: nothing, one create,
    one update of an existing record, or one delete. *)
Lemma serve_effect (h : Hit) (w : World) :
  let w0 := set_transport (hit_mail_up h) w in
  let w' := snd (serve h w) in
  w' = w0 \/
  (exists fn ln a,
     fn <> "" /\ ln <> "" /\ 0 <= a /\ w' = created fn ln a w0) \/
  (exists pk old fn ln a,
     Objects.get pk (rows (leads w0)) = Some old /\
     fn <> "" /\ ln <> "" /\ 0 <= a /\
     w' = set_leads
            (Objects.update (mkLead pk fn ln a (agent old)) (leads w0)) w0) \/
  (exists pk, w' = set_leads (Objects.delete pk (leads w0)) w0).
Proof.
  cbv zeta. unfold serve. rewrite get_response_world.
  generalize (set_transport (hit_mail_up h) w) as w0. intros w0.
  destruct (read_views_keep_world w0 0 (hit_request h)) as [H1 [H2 _]].
  destruct (hit_route h) as [| |pk| |pk|pk]; cbn [resolve].
  - left. exact H1.
  - left. exact H2.
  - left. destruct (read_views_keep_world w0 pk (hit_request h))
      as [_ [_ H3]]. exact H3.
  - destruct (create_cases (hit_request h) w0)
      as [[resp [Hrun _]]
         |[_ [_ [Hv [[_ Hrun]|[_ [a [Hage [_ Hrun]]]]]]]]];
      rewrite Hrun; cbn [snd]; auto.
    right. left.
    destruct (valid_fields _ _ a Hv Hage) as [Hf [Hl Hle]].
    exists (data_first_name (post_data (hit_request h))),
      (data_last_name (post_data (hit_request h))), a. auto.
  - destruct (update_cases pk (hit_request h) w0)
      as [[resp [Hrun _]]
         |[[Hrun _]|[old [a [_ [_ [Hg [Hv [Hage [_ Hrun]]]]]]]]]];
      rewrite Hrun; cbn [snd]; auto.
    right. right. left.
    destruct (valid_fields _ _ a Hv Hage) as [Hf [Hl Hle]].
    exists pk, old, (data_first_name (post_data (hit_request h))),
      (data_last_name (post_data (hit_request h))), a. auto.
  - destruct (delete_cases pk (hit_request h) w0)
      as [[resp [Hrun _]]|[[Hrun _]|[old [_ [_ [_ Hrun]]]]]];
      rewrite Hrun; cbn [snd]; auto.
    right. right. right. exists pk. reflexivity.
Qed.

(** Rows that went through the form stay so under each effect. *)
Lemma validated_update (l : Lead) (t : Table) :
  validated l -> Forall validated (rows t) ->
  Forall validated (rows (Objects.update l t)).
Proof.
  intros Hl Hall. unfold Objects.update. simpl.
  apply Forall_forall. intros x Hx. apply in_map_iff in Hx.
  destruct Hx as [y [Hy Hin]]. rewrite Forall_forall in Hall.
  destruct (id y =? id l); subst x; auto.
Qed.

Lemma validated_delete (pk : Z) (t : Table) :
  Forall validated (rows t) ->
  Forall validated (rows (Objects.delete pk t)).
Proof.
  intros Hall. unfold Objects.delete. simpl.
  rewrite Forall_forall in *. intros x Hx. apply filter_In in Hx.
  apply Hall. tauto.
Qed.

Lemma serve_keeps_tidy (h : Hit) (w : World) :
  wf_world w /\ Forall validated (rows (leads w)) ->
  wf_world (snd (serve h w)) /\
  Forall validated (rows (leads (snd (serve h w)))).
Proof.
  intros [Hwf Hval].
  destruct (serve_effect h w)
    as [Heq|[[fn [ln [a [Hf [Hl [Hle Heq]]]]]]
       |[[pk [old [fn [ln [a [Hg [Hf [Hl [Hle Heq]]]]]]]]]|[pk Heq]]]];
    rewrite Heq; unfold created, set_leads, set_outbox, set_transport,
      wf_world; cbn [leads outbox].
  - auto.
  - split; [exact (wf_insert fn ln a None (leads w) Hwf)|].
    unfold Objects.insert. simpl. apply Forall_app. split; [exact Hval|].
    constructor; [|constructor]. unfold validated. simpl. auto.
  - cbn [leads set_transport] in Hg. split.
    + apply (wf_update _ old); [exact Hwf|]. cbn [id].
      exact Hg.
    + apply validated_update; [|exact Hval]. unfold validated. simpl. auto.
  - split; [exact (wf_delete pk (leads w) Hwf)|].
    apply validated_delete. exact Hval.
Qed.

Lemma serve_keeps_books (h : Hit) (w : World) :
  books_balance w -> books_balance (snd (serve h w)).
Proof.
  intros [Hnext [Hall Hcount]].
  destruct (serve_effect h w)
    as [Heq|[[fn [ln [a [_ [_ [_ Heq]]]]]]
       |[[pk [old [fn [ln [a [_ [_ [_ [_ Heq]]]]]]]]]|[pk Heq]]]];
    rewrite Heq; unfold books_balance, created, set_leads, set_outbox,
      set_transport; cbn [leads outbox].
  - auto.
  - unfold Objects.insert, Objects.count in *. cbn [snd rows next_id].
    rewrite !length_app. cbn [List.length]. split; [lia|]. split; [|lia].
    apply Forall_app. split; [exact Hall|]. constructor; [reflexivity|].
    constructor.
  - rewrite count_update. unfold Objects.update. simpl. auto.
  - pose proof (count_delete_le pk (leads w)).
    unfold Objects.delete at 1. simpl. split; [exact Hnext|].
    split; [exact Hall | lia].
Qed.

End Sequences.

(** X13: whatever requests are served, in whatever order, by whatever
    users and with the mail transport up or down, a table with unique
    primary keys whose rows all have both names and a non-negative age
    stays such a table: the handlers write nothing that did not pass the
    form. *)
Theorem served_worlds_stay_tidy (hits : list Hit) (w : World) :
  wf_world w ->
  Forall validated (rows (leads w)) ->
  wf_world (serve_all hits w) /\
  Forall validated (rows (leads (serve_all hits w))).
Proof.
  revert w. induction hits as [|h rest IH]; intros w Hwf Hval; simpl.
  - auto.
  - destruct (serve_keeps_tidy h w (conj Hwf Hval)) as [Hwf' Hval'].
    apply IH; assumption.
Qed.

Lemma served_worlds_stay_tidy_witness :
  wf_world
    (serve_all
       [mkHit CreateRoute (post_by (AuthenticatedUser 1) submission) true;
        mkHit (UpdateRoute 1) (post_by (AuthenticatedUser 2) bad_submission)
          true;
        mkHit (DeleteRoute 1) (post_by AnonymousUser submission) false]
       fixture) /\
  Forall validated
    (rows (leads
       (serve_all
          [mkHit CreateRoute (post_by (AuthenticatedUser 1) submission) true;
           mkHit (UpdateRoute 1)
             (post_by (AuthenticatedUser 2) bad_submission) true;
           mkHit (DeleteRoute 1) (post_by AnonymousUser submission) false]
          fixture))).
Proof.
  apply (served_worlds_stay_tidy
           [mkHit CreateRoute (post_by (AuthenticatedUser 1) submission) true;
            mkHit (UpdateRoute 1)
              (post_by (AuthenticatedUser 2) bad_submission) true;
            mkHit (DeleteRoute 1) (post_by AnonymousUser submission) false]
           fixture).
  - split; simpl.
    + constructor; [simpl; tauto | constructor].
    + constructor; [simpl; lia | constructor].
  - simpl. constructor; [|constructor]. unfold validated. simpl.
    split; [discriminate|]. split; [discriminate | lia].
Defined.

(** X14: starting from a fresh deployment, after any sequence of
    requests the outbox holds exactly one message per primary key ever
    handed out, every message is the fixed one, and there are never more
    records than messages: no lead was created without its notification
    and no notification was sent without a lead being created. *)
Theorem one_message_per_key_handed_out (hits : list Hit) :
  next_id (leads (serve_all hits initial))
  = 1 + Z.of_nat (List.length (outbox (serve_all hits initial))) /\
  Forall (fun m => m = lead_created_mail) (outbox (serve_all hits initial)) /\
  Objects.count (leads (serve_all hits initial))
  <= Z.of_nat (List.length (outbox (serve_all hits initial))).
Proof.
  assert (H : forall w, books_balance w -> books_balance (serve_all hits w)).
  { induction hits as [|h rest IH]; intros w Hw; simpl; [exact Hw|].
    apply IH. apply serve_keeps_books. exact Hw. }
  apply (H initial). unfold books_balance, initial. simpl.
  split; [reflexivity|]. split; [constructor | reflexivity].
Qed.

(** X15: a PUT never submits: sent by an authenticated user to the create
    page, or to the update page of an existing record, whatever fields it
    carries, it is answered with status 200 by the form rendered with
    errors, and nothing is created, overwritten or sent. *)
Theorem put_never_submits
  (pk : Z) (r : HttpRequest) (w : World) (old : Lead) :
  is_authenticated (user r) = true ->
  method r = PUT ->
  Objects.get pk (rows (leads w)) = Some old ->
  get_response (LeadCreateView.as_view r) w
  = (TemplateResponse "leads/lead_create.html"
       (FormContext {| Forms.data := Some generic.no_data;
                       Forms.instance := None |}), w) /\
  get_response (LeadUpdateView.as_view pk r) w
  = (TemplateResponse "leads/lead_update.html"
       (FormContext {| Forms.data := Some generic.no_data;
                       Forms.instance := Some old |}), w) /\
  Forms.errors {| Forms.data := Some generic.no_data;
                  Forms.instance := Some old |} <> [].
Proof.
  intros Ha Hm Hg.
  unfold get_response, LeadCreateView.as_view, LeadUpdateView.as_view.
  rewrite !authenticated_runs by exact Ha.
  unfold generic.dispatch, LeadUpdateView.queryset. rewrite Hm.
  cbn [generic.CreateView generic.UpdateView generic.put].
  unfold bind. rewrite (get_object_found pk w old Hg).
  rewrite !put_rerenders.
  split; [reflexivity|]. split; [reflexivity | discriminate].
Qed.

Lemma put_never_submits_witness :
  get_response
    (LeadCreateView.as_view
       (with_method PUT (post_by (AuthenticatedUser 1) submission)))
    fixture_mail_down
  = (TemplateResponse "leads/lead_create.html"
       (FormContext {| Forms.data := Some generic.no_data;
                       Forms.instance := None |}), fixture_mail_down) /\
  get_response
    (LeadUpdateView.as_view 1
       (with_method PUT (post_by (AuthenticatedUser 1) submission)))
    fixture_mail_down
  = (TemplateResponse "leads/lead_update.html"
       (FormContext {| Forms.data := Some generic.no_data;
                       Forms.instance := Some john_doe |}),
     fixture_mail_down) /\
  Forms.errors {| Forms.data := Some generic.no_data;
                  Forms.instance := Some john_doe |} <> [].
Proof.
  apply (put_never_submits 1
           (with_method PUT (post_by (AuthenticatedUser 1) submission))
           fixture_mail_down john_doe); reflexivity.
Defined.
